(** * IPL performance dashboard: loader, filters and aggregations

    A shallow embedding of [python.py]: the loader [load_matches], the
    sidebar filter pipeline, the empty-result guard and the grouped counts
    behind the metric cards and charts.  A data frame is a list of rows in
    file order; a column is the list of one field over the rows.  pandas and
    numpy calls are modelled by the small functions of the [Pandas] module. *)

From Stdlib Require Import ZArith String Bool Lia List Sorted Permutation.
Import ListNotations.
Local Open Scope string_scope.
Local Open Scope Z_scope.

(** ** The pandas / numpy operations the script uses *)

Module Pandas.

(** [Series.fillna(v)]: a missing cell becomes [v]. *)
Definition fillna {A : Type} (v : A) (c : option A) : A :=
  match c with
  | Some x => x
  | None => v
  end.

(** [np.arange(start, stop)] as a list of integers. *)
Definition arange (start stop : Z) : list Z :=
  map (fun i => start + Z.of_nat i) (seq 0 (Z.to_nat (stop - start))).

(** A scalar argument of [np.where] is broadcast to the length of the
    condition. *)
Definition broadcast {A : Type} (x : A) (n : nat) : list A := repeat x n.

(** [np.where(cond, x, y)] on arrays of one length. *)
Fixpoint np_where {A : Type} (cond : list bool) (x y : list A) : list A :=
  match cond, x, y with
  | c :: cond', a :: x', b :: y' =>
      (if c then a else b) :: np_where cond' x' y'
  | _, _, _ => []
  end.

(** [Series.eq(v)] on an object column: a missing cell is not equal. *)
Definition series_eq (v : string) (col : list (option string)) : list bool :=
  map (fun c => match c with Some s => String.eqb s v | None => false end) col.

(** [Series > 0] on a numeric column. *)
Definition series_gt0 (col : list Z) : list bool :=
  map (fun x => 0 <? x) col.

(** Nanoseconds in a day: a [Timestamp] is a count of nanoseconds since the
    epoch, a [datetime.date] a count of days since the epoch. *)
Definition ns_per_day : Z := 86400000000000.

(** [pd.to_datetime(d)] for a [datetime.date]: midnight of that day. *)
Definition to_datetime_date (d : Z) : Z := d * ns_per_day.

(** Calendar year of a day count (proleptic Gregorian calendar). *)
Definition year_of_days (days : Z) : Z :=
  let z := days + 719468 in
  let era := z / 146097 in
  let doe := z - era * 146097 in
  let yoe := (doe - doe / 1460 + doe / 36524 - doe / 146096) / 365 in
  let doy := doe - (365 * yoe + yoe / 4 - yoe / 100) in
  let mp := (5 * doy + 2) / 153 in
  let m := if mp <? 10 then mp + 3 else mp - 9 in
  let y := yoe + era * 400 in
  if m <=? 2 then y + 1 else y.

(** [Series.dt.year] on one timestamp. *)
Definition dt_year (ts : Z) : Z := year_of_days (ts / ns_per_day).

(** [Series.notna()] on one cell. *)
Definition notna {A : Type} (c : option A) : bool :=
  match c with
  | Some _ => true
  | None => false
  end.

(** [Series.dropna()]. *)
Fixpoint dropna {A : Type} (col : list (option A)) : list A :=
  match col with
  | [] => []
  | Some x :: col' => x :: dropna col'
  | None :: col' => dropna col'
  end.

(** Number of entries that satisfy a test, as [mask.sum()] or a group's
    [count()] gives it. *)
Definition count_where {A : Type} (p : A -> bool) (l : list A) : Z :=
  Z.of_nat (length (filter p l)).

(** [Series.isin(values)]: a missing cell is in no selection. *)
Definition isin_str (x : string) (values : list string) : bool :=
  existsb (String.eqb x) values.

Definition isin_Z (x : option Z) (values : list Z) : bool :=
  match x with
  | Some v => existsb (Z.eqb v) values
  | None => false
  end.

(** [Series >= t] and [Series <= t] on a datetime column: NaT compares
    false both ways. *)
Definition ts_ge (d : option Z) (t : Z) : bool :=
  match d with
  | Some v => t <=? v
  | None => false
  end.

Definition ts_le (d : option Z) (t : Z) : bool :=
  match d with
  | Some v => v <=? t
  | None => false
  end.

(** Keys of a [groupby] or labels of a [pivot] axis: sorted, each once. *)
Section SortedKeys.
Context {K : Type} (cmp : K -> K -> comparison).

Fixpoint insert_key (k : K) (l : list K) : list K :=
  match l with
  | [] => [k]
  | x :: l' =>
      match cmp k x with
      | Lt => k :: l
      | Eq => l
      | Gt => x :: insert_key k l'
      end
  end.

Definition sorted_keys (l : list K) : list K := fold_right insert_key [] l.

Definition key_eqb (a b : K) : bool :=
  match cmp a b with
  | Eq => true
  | _ => false
  end.
End SortedKeys.

(** Order of the key pairs of [groupby(["season", "winner"])]. *)
Definition pair_compare (a b : Z * string) : comparison :=
  match Z.compare (fst a) (fst b) with
  | Eq => String.compare (snd a) (snd b)
  | c => c
  end.

(** [df.groupby(key)["match_id"].count().reset_index()]: one entry per key
    that occurs, in key order; rows whose key is missing are dropped
    (pandas' default [dropna=True]); [count] counts the rows of the group
    whose counted cell is present. *)
Definition groupby_count {R K V : Type} (cmp : K -> K -> comparison)
    (key : R -> option K) (val : R -> option V) (f : list R) : list (K * Z) :=
  map (fun k =>
         (k, count_where
               (fun r => match key r with
                         | Some k' => key_eqb cmp k' k && notna (val r)
                         | None => false
                         end) f))
      (sorted_keys cmp (dropna (map key f))).

(** [pd.unique]: the distinct values in order of first occurrence. *)
Fixpoint unique (l : list string) : list string :=
  match l with
  | [] => []
  | x :: l' => x :: filter (fun y => negb (String.eqb y x)) (unique l')
  end.

(** Descending sort by count that keeps entries of equal count in their
    given order. *)
Fixpoint insert_desc (x : string * Z) (l : list (string * Z)) : list (string * Z) :=
  match l with
  | [] => [x]
  | y :: l' => if snd y <=? snd x then x :: l else y :: insert_desc x l'
  end.

Definition sort_values_desc (l : list (string * Z)) : list (string * Z) :=
  fold_right insert_desc [] l.

(** [Series.value_counts()]: the count of each distinct value, largest
    first.  pandas orders by count only; values of equal count come out in
    order of first occurrence. *)
Definition value_counts (col : list string) : list (string * Z) :=
  sort_values_desc
    (map (fun k => (k, count_where (String.eqb k) col)) (unique col)).

(** [Series.nunique()]: number of distinct values that are present. *)
Definition nunique (col : list (option string)) : Z :=
  Z.of_nat (length (unique (dropna col))).

(** A frame with labelled rows and columns, as [pivot] returns it. *)
Record Grid (V : Type) : Type := mkGrid {
  grid_index : list string;
  grid_columns : list Z;
  grid_values : list (list V)
}.
Arguments mkGrid {V} _ _ _.
Arguments grid_index {V} _.
Arguments grid_columns {V} _.
Arguments grid_values {V} _.

(** Position of a label on an axis. *)
Fixpoint index_of {A : Type} (eqb : A -> A -> bool) (x : A) (l : list A) : option nat :=
  match l with
  | [] => None
  | y :: l' => if eqb x y then Some O
               else match index_of eqb x l' with
                    | Some i => Some (S i)
                    | None => None
                    end
  end.

(** [grid.loc[w, s]]: the cell at row label [w] and column label [s], when
    both labels exist. *)
Definition grid_cell {V : Type} (g : Grid V) (w : string) (s : Z) : option V :=
  match index_of String.eqb w (grid_index g), index_of Z.eqb s (grid_columns g) with
  | Some i, Some j =>
      match nth_error (grid_values g) i with
      | Some line => nth_error line j
      | None => None
      end
  | _, _ => None
  end.

(** The entry of a long table for one (season, winner) pair. *)
Fixpoint long_lookup (long : list ((Z * string) * Z)) (w : string) (s : Z) : option Z :=
  match long with
  | [] => None
  | ((s', w'), n) :: long' =>
      if Z.eqb s' s && String.eqb w' w then Some n else long_lookup long' w s
  end.

(** [long.pivot(index="winner", columns="season", values="match_id")]: the
    axes are the sorted labels of the long table; a pair without an entry
    gives a missing cell. *)
Definition pivot (long : list ((Z * string) * Z)) : Grid (option Z) :=
  let idx := sorted_keys String.compare (map (fun e => snd (fst e)) long) in
  let cols := sorted_keys Z.compare (map (fun e => fst (fst e)) long) in
  mkGrid idx cols (map (fun w => map (fun s => long_lookup long w s) cols) idx).

(** [DataFrame.fillna(v)] on a grid. *)
Definition grid_fillna (v : Z) (g : Grid (option Z)) : Grid Z :=
  mkGrid (grid_index g) (grid_columns g) (map (map (fillna v)) (grid_values g)).

(** Truth value of a Python list: false exactly when it is empty. *)
Definition truthy {A : Type} (l : list A) : bool :=
  match l with
  | [] => false
  | _ :: _ => true
  end.

End Pandas.
Import Pandas.

(** ** Data model *)

(** A cell of the [date] column as [read_csv] delivers it, classified by what
    [pd.to_datetime(..., errors="coerce")] makes of it. *)
Inductive DateCell : Type :=
| DateParsed (ts : Z)
| DateUnparseable (text : string)
| DateBlank.

(** [pd.to_datetime(col, errors="coerce")] on one cell: what does not parse
    becomes NaT. *)
Definition to_datetime_coerce (c : DateCell) : option Z :=
  match c with
  | DateParsed ts => Some ts
  | DateUnparseable _ => None
  | DateBlank => None
  end.

(** One line of [data/matches.csv].  [raw_match_id] and [raw_season] are read
    only when the file has the column. *)
Record RawRow : Type := mkRawRow {
  raw_match_id : option Z;
  raw_date : DateCell;
  raw_season : option Z;
  raw_team1 : string;
  raw_team2 : string;
  raw_winner : option string;
  raw_venue : option string;
  raw_win_by_runs : option Z;
  raw_win_by_wickets : option Z
}.

(** The frame returned by [pd.read_csv]: which optional columns the header
    has, and the rows. *)
Record RawTable : Type := mkRawTable {
  has_match_id : bool;
  has_season : bool;
  has_venue : bool;
  raw_rows : list RawRow
}.

(** A row of the frame returned by [load_matches]. *)
Record Row : Type := mkRow {
  match_id : option Z;
  date : option Z;
  season : option Z;
  team1 : string;
  team2 : string;
  winner : string;
  venue : option string;
  win_by_runs : option Z;
  win_by_wickets : option Z;
  result_type : string
}.

Definition NO_RESULT : string := "No Result".

(** ** The loader *)

(** The [match_id] column: kept when the file has one, else 1..len(df). *)
Definition match_id_column (raw : RawTable) : list (option Z) :=
  if has_match_id raw
  then map raw_match_id (raw_rows raw)
  else map Some (arange 1 (Z.of_nat (length (raw_rows raw)) + 1)).

(** The [winner] column after [fillna("No Result")]. *)
Definition winner_column (raw : RawTable) : list string :=
  map (fun r => fillna NO_RESULT (raw_winner r)) (raw_rows raw).

(** The [date] column after [pd.to_datetime(..., errors="coerce")]. *)
Definition date_column (raw : RawTable) : list (option Z) :=
  map (fun r => to_datetime_coerce (raw_date r)) (raw_rows raw).

(** The [season] column: kept when the file has one, else the year of the
    parsed date. *)
Definition season_column (raw : RawTable) : list (option Z) :=
  if has_season raw
  then map raw_season (raw_rows raw)
  else map (option_map dt_year) (date_column raw).

(** The [result_type] column: the three nested [np.where] calls. *)
Definition result_type_column (raw : RawTable) : list string :=
  let n := length (raw_rows raw) in
  let winner := winner_column raw in
  let runs := map (fun r => fillna 0 (raw_win_by_runs r)) (raw_rows raw) in
  let wickets := map (fun r => fillna 0 (raw_win_by_wickets r)) (raw_rows raw) in
  np_where (series_eq NO_RESULT (map Some winner)) (broadcast NO_RESULT n)
    (np_where (series_gt0 runs) (broadcast "Won by Runs" n)
       (np_where (series_gt0 wickets) (broadcast "Won by Wickets" n)
          (broadcast "Other" n))).

(** Rows of the returned frame, put together from the columns. *)
Fixpoint assemble (rows : list RawRow) (ids dates seasons : list (option Z))
    (winners rtypes : list string) : list Row :=
  match rows, ids, dates, seasons, winners, rtypes with
  | r :: rows', i :: ids', d :: dates', s :: seasons', w :: winners', t :: rtypes' =>
      mkRow i d s (raw_team1 r) (raw_team2 r) w (raw_venue r)
        (raw_win_by_runs r) (raw_win_by_wickets r) t
      :: assemble rows' ids' dates' seasons' winners' rtypes'
  | _, _, _, _, _, _ => []
  end.

Definition load_matches (raw : RawTable) : list Row :=
  assemble (raw_rows raw) (match_id_column raw) (date_column raw)
    (season_column raw) (winner_column raw) (result_type_column raw).

(** What the loader makes of one line, given the identifier it gets. *)
Definition load_row (raw : RawTable) (r : RawRow) (i : option Z) : Row :=
  let d := to_datetime_coerce (raw_date r) in
  let w := fillna NO_RESULT (raw_winner r) in
  mkRow i d (if has_season raw then raw_season r else option_map dt_year d)
    (raw_team1 r) (raw_team2 r) w (raw_venue r)
    (raw_win_by_runs r) (raw_win_by_wickets r)
    (if String.eqb w NO_RESULT then NO_RESULT
     else if 0 <? fillna 0 (raw_win_by_runs r) then "Won by Runs"
     else if 0 <? fillna 0 (raw_win_by_wickets r) then "Won by Wickets"
     else "Other").

(** The derivation rule of [result_type] as the specification words it. *)
Definition result_type_spec (w : string) (runs wickets : option Z) : string :=
  if String.eqb w "No Result" then "No Result"
  else if 0 <? fillna 0 runs then "Won by Runs"
  else if 0 <? fillna 0 wickets then "Won by Wickets"
  else "Other".

(** ** The sidebar filters *)

(** [f["season"].isin(season_sel)]. *)
Definition season_mask (season_sel : list Z) (r : Row) : bool :=
  isin_Z (season r) season_sel.

(** [(f["date"] >= pd.to_datetime(start_date)) & (f["date"] <= pd.to_datetime(end_date))]. *)
Definition date_mask (start_date end_date : Z) (r : Row) : bool :=
  ts_ge (date r) (to_datetime_date start_date)
  && ts_le (date r) (to_datetime_date end_date).

(** [f["team1"].isin(team_sel) | f["team2"].isin(team_sel)]. *)
Definition team_mask (team_sel : list string) (r : Row) : bool :=
  isin_str (team1 r) team_sel || isin_str (team2 r) team_sel.

(** [if season_sel: f = f[...]]. *)
Definition filter_season (season_sel : list Z) (f : list Row) : list Row :=
  if truthy season_sel then filter (season_mask season_sel) f else f.

(** The date filter has no guard. *)
Definition filter_date (start_date end_date : Z) (f : list Row) : list Row :=
  filter (date_mask start_date end_date) f.

(** [if team_sel: f = f[...]]. *)
Definition filter_team (team_sel : list string) (f : list Row) : list Row :=
  if truthy team_sel then filter (team_mask team_sel) f else f.

(** The filtered view [f], in the order the script applies the filters:
    season, date, team. *)
Definition apply_filters (season_sel : list Z) (team_sel : list string)
    (start_date end_date : Z) (matches : list Row) : list Row :=
  filter_team team_sel
    (filter_date start_date end_date
       (filter_season season_sel matches)).

(** The row test each filter step applies; a guarded step with an empty
    selection passes every row. *)
Definition season_test (season_sel : list Z) (r : Row) : bool :=
  negb (truthy season_sel) || season_mask season_sel r.

Definition team_test (team_sel : list string) (r : Row) : bool :=
  negb (truthy team_sel) || team_mask team_sel r.

(** ** Aggregations over the filtered view *)

(** [f[f["winner"] != "No Result"]]. *)
Definition with_winner (f : list Row) : list Row :=
  filter (fun r => negb (String.eqb (winner r) NO_RESULT)) f.

Definition total_matches (f : list Row) : Z := Z.of_nat (length f).

Definition no_result (f : list Row) : Z :=
  count_where (fun r => String.eqb (winner r) NO_RESULT) f.

Definition unique_venues (venue_col : bool) (f : list Row) : Z :=
  if venue_col then nunique (map venue f) else 0.

(** [wins = f[f["winner"] != "No Result"]["winner"].value_counts()]. *)
Definition wins (f : list Row) : list (string * Z) :=
  value_counts (map winner (with_winner f)).

(** [wins.index[0] if len(wins) else "N/A"]. *)
Definition top_team (f : list Row) : string :=
  match wins f with
  | (t, _) :: _ => t
  | [] => "N/A"
  end.

(** [int(wins.iloc[0]) if len(wins) else 0]. *)
Definition top_team_wins (f : list Row) : Z :=
  match wins f with
  | (_, n) :: _ => n
  | [] => 0
  end.

(** [f.groupby("season")["match_id"].count().reset_index(name="matches")]:
    [reset_index] turns the group keys into the [season] column of a new
    frame, next to the counts. *)
Definition season_counts (f : list Row) : list (option Z * Z) :=
  map (fun e => (Some (fst e), snd e)) (groupby_count Z.compare season match_id f).

(** [value_counts().reset_index()] then [head(10)]. *)
Definition win_counts (f : list Row) : list (string * Z) :=
  firstn 10 (value_counts (map winner (with_winner f))).

(** [groupby(["season", "winner"])["match_id"].count().reset_index()] over
    the rows with a winner. *)
Definition win_matrix (f : list Row) : list ((Z * string) * Z) :=
  groupby_count pair_compare
    (fun r => match season r with
              | Some s => Some (s, winner r)
              | None => None
              end)
    match_id (with_winner f).

(** [win_matrix.pivot(index="winner", columns="season", values="match_id").fillna(0)]. *)
Definition win_pivot (f : list Row) : Grid Z :=
  grid_fillna 0 (pivot (win_matrix f)).

(** The scatter frame [s]: rows with a winner, margins filled with 0. *)
Definition scatter_rows (f : list Row) : list Row :=
  map (fun r =>
         mkRow (match_id r) (date r) (season r) (team1 r) (team2 r) (winner r)
           (venue r) (Some (fillna 0 (win_by_runs r)))
           (Some (fillna 0 (win_by_wickets r))) (result_type r))
      (with_winner f).

(** [f["result_type"].value_counts().reset_index()]. *)
Definition result_counts (f : list Row) : list (string * Z) :=
  value_counts (map result_type f).

(** ** The script from the filters on *)

(** Calls into Streamlit that carry a message or data.  Titles, layout
    ([columns], [tabs], [subheader]) and the fixed interpretation texts are
    left out. *)
Inductive UICall : Type :=
| st_warning (msg : string)
| st_metric (label : string) (value : Z)
| st_metric_delta (label value : string) (wins_delta : Z)
| plot_line (data : list (option Z * Z))
| plot_bar (data : list (string * Z))
| plot_heatmap (data : Grid Z)
| plot_scatter (data : list Row)
| plot_pie (data : list (string * Z)).

(** How a run of the script ends early: [st.stop()], or an exception. *)
Inductive Halt : Type :=
| Stopped
| ValueError.

(** A script step: the calls it made so far, then either a halt or a
    value. *)
Definition Script (A : Type) : Type := (list UICall * (Halt + A))%type.

Definition ret {A : Type} (x : A) : Script A := ([], inr x).

Definition bind {A B : Type} (c : Script A) (k : A -> Script B) : Script B :=
  match c with
  | (out, inl h) => (out, inl h)
  | (out, inr x) => let (out', res) := k x in ((out ++ out')%list, res)
  end.

Definition call (c : UICall) : Script unit := ([c], inr tt).

Definition halt {A : Type} (h : Halt) : Script A := ([], inl h).

Notation "x <- c ;; k" := (bind c (fun x => k))
  (at level 61, c at next level, right associativity).
Notation "c ;; k" := (bind c (fun _ => k))
  (at level 61, right associativity).

Definition NO_MATCHES_WARNING : string :=
  "No matches found for the selected filters. Try changing seasons/teams/date range.".

(** [start_date, end_date = date_range]: the widget hands over a tuple of up
    to two dates. *)
Definition unpack_range (date_range : list Z) : Script (Z * Z) :=
  match date_range with
  | [start_date; end_date] => ret (start_date, end_date)
  | _ => halt ValueError
  end.

(** The metric cards and the two tabs. *)
Definition render (venue_col : bool) (f : list Row) : Script unit :=
  call (st_metric "Matches" (total_matches f)) ;;
  call (st_metric "No Result" (no_result f)) ;;
  call (st_metric "Venues" (unique_venues venue_col f)) ;;
  call (st_metric_delta "Top Winner" (top_team f) (top_team_wins f)) ;;
  call (plot_line (season_counts f)) ;;
  call (plot_bar (win_counts f)) ;;
  call (plot_heatmap (win_pivot f)) ;;
  call (plot_scatter (scatter_rows f)) ;;
  call (plot_pie (result_counts f)).

(** The script from "Apply filters" to the end, for the selections the
    sidebar widgets returned. *)
Definition dashboard (venue_col : bool) (matches : list Row)
    (season_sel : list Z) (team_sel : list string) (date_range : list Z)
    : Script unit :=
  let f := filter_season season_sel matches in
  dr <- unpack_range date_range ;;
  let f := filter_date (fst dr) (snd dr) f in
  let f := filter_team team_sel f in
  (if truthy f then ret tt
   else call (st_warning NO_MATCHES_WARNING) ;; halt Stopped) ;;
  render venue_col f.

(** ** The sidebar options *)

(** [Series.unique()] on a numeric column: first occurrences, in order. *)
Fixpoint unique_Z (l : list Z) : list Z :=
  match l with
  | [] => []
  | x :: l' => x :: filter (fun y => negb (Z.eqb y x)) (unique_Z l')
  end.

(** Python's [sorted]: ascending, equal elements in their given order. *)
Fixpoint insert_sorted {A : Type} (leb : A -> A -> bool) (x : A) (l : list A)
    : list A :=
  match l with
  | [] => [x]
  | y :: l' => if leb x y then x :: l else y :: insert_sorted leb x l'
  end.

Definition py_sorted {A : Type} (leb : A -> A -> bool) (l : list A) : list A :=
  fold_right (insert_sorted leb) [] l.

(** [seasons = sorted(matches["season"].dropna().unique().tolist())]. *)
Definition seasons (matches : list Row) : list Z :=
  py_sorted Z.leb (unique_Z (dropna (map season matches))).

(** [seasons[-5:] if len(seasons) >= 5 else seasons]. *)
Definition default_seasons (matches : list Row) : list Z :=
  let all := seasons matches in
  if (5 <=? length all)%nat then skipn (length all - 5) all else all.

(** [teams = sorted(pd.unique(matches[["team1", "team2"]].values.ravel("K")))]:
    the two columns laid end to end, first occurrences, sorted. *)
Definition teams (matches : list Row) : list string :=
  py_sorted String.leb (unique (map team1 matches ++ map team2 matches)%list).

(** [Series.min()] and [Series.max()] on the date column: missing dates are
    skipped, and the result is missing when there is no date at all. *)
Definition series_min (col : list (option Z)) : option Z :=
  match dropna col with
  | [] => None
  | d :: ds => Some (fold_right Z.min d ds)
  end.

Definition series_max (col : list (option Z)) : option Z :=
  match dropna col with
  | [] => None
  | d :: ds => Some (fold_right Z.max d ds)
  end.

(** [Timestamp.date()]: the day a timestamp falls on. *)
Definition timestamp_date (ts : Z) : Z := ts / ns_per_day.

(** The value the date picker starts with,
    [(min_date.date(), max_date.date())], when the table has a date. *)
Definition default_date_range (matches : list Row) : option (Z * Z) :=
  match series_min (map date matches), series_max (map date matches) with
  | Some lo, Some hi => Some (timestamp_date lo, timestamp_date hi)
  | _, _ => None
  end.

(** Total of the counts of a table of counts. *)
Definition sum_counts {K : Type} (l : list (K * Z)) : Z :=
  fold_right (fun e acc => snd e + acc) 0 l.

(** The four values of [result_type]. *)
Definition RESULT_TYPES : list string :=
  ["No Result"; "Won by Runs"; "Won by Wickets"; "Other"].

(** The whole script for a file that loads: the frame of [load_matches],
    then the filters, the guard and the cards and charts. *)
Definition script (raw : RawTable) (season_sel : list Z) (team_sel : list string)
    (date_range : list Z) : Script unit :=
  dashboard (has_venue raw) (load_matches raw) season_sel team_sel date_range.

(** ** Sample data *)

Definition sample_row (i : Z) (d : DateCell) (s : option Z) (w : option string)
    (runs wickets : option Z) : RawRow :=
  mkRawRow (Some i) d s "Mumbai" "Chennai" w (Some "Wankhede") runs wickets.

(** Midnight of 2020-01-01 and of 2021-01-01. *)
Definition ts_2020 : Z := to_datetime_date 18262.
Definition ts_2021 : Z := to_datetime_date 18628.

Definition loaded_row (i : Z) (d s : option Z) (w : string) : Row :=
  mkRow (Some i) d s "Mumbai" "Chennai" w (Some "Wankhede") (Some 5) (Some 0)
    (result_type_spec w (Some 5) (Some 0)).

(** Three lines of a file without [match_id] and [season] columns; the
    second has no winner. *)
Definition three_lines : RawTable :=
  mkRawTable false false true
    [sample_row 0 (DateParsed ts_2020) None (Some "Mumbai") (Some 20) (Some 0);
     sample_row 0 (DateParsed ts_2021) None None None None;
     sample_row 0 (DateParsed ts_2021) None (Some "Chennai") (Some 0) (Some 3)].

(** A file whose own [match_id] column repeats a value. *)
Definition repeated_ids : RawTable :=
  mkRawTable true true true
    [sample_row 7 (DateParsed ts_2020) (Some 2020) (Some "Mumbai") (Some 20) (Some 0);
     sample_row 7 (DateParsed ts_2021) (Some 2021) (Some "Chennai") (Some 0) (Some 3)].

(** A file with its own [season] column, blank on the second line, and the
    view over it for the whole range of dates and no selection. *)
Definition file_with_missing_season : RawTable :=
  mkRawTable false true true
    [sample_row 0 (DateParsed ts_2020) (Some 2020) (Some "Mumbai") (Some 5) (Some 0);
     sample_row 0 (DateParsed ts_2021) None (Some "Chennai") (Some 5) (Some 0);
     sample_row 0 (DateParsed ts_2021) (Some 2021) (Some "Mumbai") (Some 5) (Some 0)].

Definition view_with_missing_season : list Row :=
  apply_filters [] [] 18262 18993 (load_matches file_with_missing_season).

(** Two matches won by different teams, the later name first. *)
Definition file_with_tie : RawTable :=
  mkRawTable false true true
    [sample_row 0 (DateParsed ts_2020) (Some 2020) (Some "Mumbai") (Some 5) (Some 0);
     sample_row 0 (DateParsed ts_2021) (Some 2021) (Some "Chennai") (Some 5) (Some 0)].

Definition view_with_tie : list Row :=
  apply_filters [] [] 18262 18993 (load_matches file_with_tie).

(** Scenario C of the specification: two wins of Mumbai, one of Chennai. *)
Definition file_scenario_C : RawTable :=
  mkRawTable false true true
    [sample_row 0 (DateParsed ts_2020) (Some 2020) (Some "Mumbai") (Some 20) (Some 0);
     sample_row 0 (DateParsed ts_2020) (Some 2020) (Some "Mumbai") (Some 0) (Some 0);
     sample_row 0 (DateParsed ts_2021) (Some 2021) (Some "Chennai") (Some 0) (Some 3)].

Definition view_scenario_C : list Row :=
  apply_filters [] [] 18262 18993 (load_matches file_scenario_C).

(** A file with a season, 2020, in which no match had a winner. *)
Definition file_with_washed_out_season : RawTable :=
  mkRawTable false true true
    [sample_row 0 (DateParsed ts_2020) (Some 2020) None None None;
     sample_row 0 (DateParsed ts_2021) (Some 2021) (Some "Mumbai") (Some 5) (Some 0);
     sample_row 0 (DateParsed ts_2021) (Some 2021) (Some "Chennai") (Some 0) (Some 2);
     sample_row 0 (DateParsed (to_datetime_date 18993)) (Some 2022) (Some "Chennai")
       (Some 9) (Some 0)].

Definition view_with_washed_out_season : list Row :=
  apply_filters [] [] 18262 18993 (load_matches file_with_washed_out_season).

(** ** Orders on leaderboard entries *)

(** Larger count first. *)
Definition by_count_desc (a b : string * Z) : Prop := snd b <= snd a.

(** Larger count first, and the smaller name first among equal counts. *)
Definition by_count_then_name (a b : string * Z) : Prop :=
  snd b < snd a \/ (snd a = snd b /\ String.ltb (fst a) (fst b) = true).

(** Number of rows of a view won by a team. *)
Definition wins_of (w : string) (f : list Row) : Z :=
  count_where (fun r => String.eqb (winner r) w) f.

(** ** Wins per team and season *)

(** The group key of a row in [groupby(["season", "winner"])]. *)
Definition win_key (r : Row) : option (Z * string) :=
  match season r with
  | Some s => Some (s, winner r)
  | None => None
  end.

(** A match won by team [w] in season [s] that carries a [match_id]. *)
Definition is_win_of (w : string) (s : Z) (r : Row) : bool :=
  negb (String.eqb (winner r) NO_RESULT)
  && match win_key r with
     | Some k => key_eqb pair_compare k (s, w) && notna (match_id r)
     | None => false
     end.

(** The rows a season's count is taken over: those of that season whose
    [match_id] is present. *)
Definition in_season (s : Z) (r : Row) : bool :=
  match season r with
  | Some s' => Z.eqb s' s && notna (match_id r)
  | None => false
  end.

(** The (season, winner) pairs that have a group. *)
Definition win_keys (f : list Row) : list (Z * string) :=
  sorted_keys pair_compare (dropna (map win_key (with_winner f))).

(** ** The loader: columns and rows *)

Section Columns.
Context {A B : Type}.

Lemma broadcast_map (x : B) (l : list A) :
  broadcast x (length l) = map (fun _ => x) l.
Proof.
  unfold broadcast. induction l as [| a l IH]; simpl; [reflexivity | now rewrite IH].
Qed.

Lemma np_where_map (c : A -> bool) (g h : A -> B) (l : list A) :
  np_where (map c l) (map g l) (map h l) = map (fun a => if c a then g a else h a) l.
Proof.
  induction l as [| a l IH]; simpl; [reflexivity | now rewrite IH].
Qed.
End Columns.

Lemma length_arange (start stop : Z) :
  length (arange start stop) = Z.to_nat (stop - start).
Proof. unfold arange. now rewrite length_map, length_seq. Qed.

Lemma length_match_id_column (raw : RawTable) :
  length (match_id_column raw) = length (raw_rows raw).
Proof.
  unfold match_id_column. destruct (has_match_id raw); rewrite length_map.
  - reflexivity.
  - rewrite length_arange. lia.
Qed.

Lemma result_type_column_rowwise (raw : RawTable) :
  result_type_column raw =
  map (fun r => result_type (load_row raw r None)) (raw_rows raw).
Proof.
  unfold result_type_column, winner_column, series_eq, series_gt0.
  rewrite !broadcast_map, !map_map.
  rewrite (np_where_map _ (fun _ => "Won by Wickets") (fun _ => "Other")).
  rewrite (np_where_map _ (fun _ => "Won by Runs")).
  rewrite (np_where_map _ (fun _ => NO_RESULT)).
  reflexivity.
Qed.

Lemma assemble_rowwise (raw : RawTable) (rows : list RawRow) :
  forall ids : list (option Z),
    length ids = length rows ->
    assemble rows ids
      (map (fun r => date (load_row raw r None)) rows)
      (map (fun r => season (load_row raw r None)) rows)
      (map (fun r => winner (load_row raw r None)) rows)
      (map (fun r => result_type (load_row raw r None)) rows)
    = map (fun p => load_row raw (fst p) (snd p)) (combine rows ids).
Proof.
  induction rows as [| r rows IH]; intros [| i ids] Hlen; simpl in *;
    try reflexivity; try discriminate.
  rewrite IH by lia. reflexivity.
Qed.

Lemma season_column_rowwise (raw : RawTable) :
  season_column raw = map (fun r => season (load_row raw r None)) (raw_rows raw).
Proof.
  unfold season_column, date_column, load_row. simpl.
  destruct (has_season raw); [reflexivity | now rewrite map_map].
Qed.

(** The frame the loader returns, read line by line. *)
Lemma load_matches_rowwise (raw : RawTable) :
  load_matches raw =
  map (fun p => load_row raw (fst p) (snd p))
      (combine (raw_rows raw) (match_id_column raw)).
Proof.
  unfold load_matches.
  rewrite season_column_rowwise, result_type_column_rowwise.
  unfold date_column, winner_column.
  apply (assemble_rowwise raw (raw_rows raw)).
  apply length_match_id_column.
Qed.

Lemma length_load_matches (raw : RawTable) :
  length (load_matches raw) = length (raw_rows raw).
Proof.
  rewrite load_matches_rowwise, length_map, length_combine, length_match_id_column.
  lia.
Qed.

Lemma match_id_load_matches (raw : RawTable) :
  map match_id (load_matches raw) = match_id_column raw.
Proof.
  rewrite load_matches_rowwise, map_map. simpl.
  pose proof (length_match_id_column raw) as Hlen.
  revert Hlen. generalize (match_id_column raw). generalize (raw_rows raw).
  induction l as [| r l IH]; intros [| i ids] Hlen; simpl in *;
    try reflexivity; try discriminate.
  f_equal. apply IH. lia.
Qed.

Lemma load_row_result_type (raw : RawTable) (r : RawRow) (i : option Z) :
  let row := load_row raw r i in
  result_type row =
  result_type_spec (winner row) (win_by_runs row) (win_by_wickets row).
Proof. reflexivity. Qed.

(** C1: every row of the loaded table carries as [result_type] the value of
    the rule of the specification at its (winner, win_by_runs,
    win_by_wickets): "No Result" for the sentinel winner, else "Won by Runs"
    when the runs margin (missing read as 0) is positive, else
    "Won by Wickets" when the wickets margin is, else "Other"; and the
    loader keeps one row per line of the file. *)
Theorem result_type_is_pure_rule (raw : RawTable) :
  length (load_matches raw) = length (raw_rows raw) /\
  Forall (fun row =>
            result_type row =
            result_type_spec (winner row) (win_by_runs row) (win_by_wickets row))
         (load_matches raw).
Proof.
  split; [apply length_load_matches |].
  rewrite load_matches_rowwise. apply Forall_forall.
  intros row Hin. apply in_map_iff in Hin.
  destruct Hin as [[r i] [<- _]]. apply load_row_result_type.
Qed.

(** Scenario D of the specification, through the loader. *)
Example scenario_D :
  map result_type
    (load_matches (mkRawTable false true true
       [sample_row 0 DateBlank (Some 2020) (Some "X") (Some 15) (Some 0);
        sample_row 0 DateBlank (Some 2020) (Some "Y") (Some 0) (Some 4);
        sample_row 0 DateBlank (Some 2020) (Some "Z") (Some 0) (Some 0)]))
  = ["Won by Runs"; "Won by Wickets"; "Other"].
Proof. reflexivity. Qed.

(** ** Match identifiers *)

Lemma NoDup_arange (start stop : Z) : NoDup (arange start stop).
Proof.
  unfold arange. generalize (seq_NoDup (Z.to_nat (stop - start)) 0).
  generalize (seq 0 (Z.to_nat (stop - start))).
  induction l as [| n l IH]; intros Hnd; simpl; [constructor |].
  inversion Hnd as [| ? ? Hnotin Hnd']; subst. constructor.
  - intros Hin. apply in_map_iff in Hin. destruct Hin as [m [Heq Hm]].
    assert (m = n) by lia. subst. contradiction.
  - apply IH. exact Hnd'.
Qed.

Lemma NoDup_map_Some {A : Type} (l : list A) : NoDup l -> NoDup (map Some l).
Proof.
  induction 1 as [| x l Hnotin Hnd IH]; simpl; constructor; [| exact IH].
  intros Hin. apply in_map_iff in Hin. destruct Hin as [y [Heq Hy]].
  injection Heq as ->. contradiction.
Qed.

(** A file that has a [match_id] column keeps its identifiers as they are. *)
Lemma match_id_kept (raw : RawTable) :
  has_match_id raw = true ->
  map match_id (load_matches raw) = map raw_match_id (raw_rows raw).
Proof.
  intros H. rewrite match_id_load_matches. unfold match_id_column. now rewrite H.
Qed.

(** C2, as the code has it: when the file has no [match_id] column the
    loader numbers the rows 1..N in file order, so the identifiers of the
    loaded table are present and pairwise distinct. *)
Theorem match_id_backfill_unique (raw : RawTable) :
  has_match_id raw = false ->
  map match_id (load_matches raw) =
    map Some (arange 1 (Z.of_nat (length (raw_rows raw)) + 1)) /\
  NoDup (map match_id (load_matches raw)).
Proof.
  intros H. rewrite match_id_load_matches. unfold match_id_column. rewrite H.
  split; [reflexivity |]. apply NoDup_map_Some, NoDup_arange.
Qed.

Lemma match_id_backfill_unique_witness :
  map match_id (load_matches three_lines) = [Some 1; Some 2; Some 3] /\
  NoDup (map match_id (load_matches three_lines)).
Proof. exact (match_id_backfill_unique three_lines eq_refl). Defined.

(** Scenario A of the specification: the row without a winner gets
    "No Result", and the identifiers are 1..3. *)
Example scenario_A :
  map (fun r => (match_id r, season r, result_type r)) (load_matches three_lines)
  = [(Some 1, Some 2020, "Won by Runs"); (Some 2, Some 2021, "No Result");
     (Some 3, Some 2021, "Won by Wickets")].
Proof. reflexivity. Qed.

(** C2 as stated fails: a non-empty file whose own [match_id] column repeats
    a value is loaded with the repetition. *)
Lemma match_id_not_unique_when_present :
  raw_rows repeated_ids <> [] /\
  ~ NoDup (map match_id (load_matches repeated_ids)).
Proof.
  split; [discriminate |].
  intros Hnd. inversion Hnd as [| ? ? Hnotin _]; subst.
  apply Hnotin. left. reflexivity.
Qed.

(** ** The filters as row tests *)

Lemma filter_true {A : Type} (l : list A) : filter (fun _ => true) l = l.
Proof. induction l as [| a l IH]; simpl; [reflexivity | now rewrite IH]. Qed.

Lemma filter_season_test (season_sel : list Z) (f : list Row) :
  filter_season season_sel f = filter (season_test season_sel) f.
Proof.
  unfold filter_season, season_test. destruct season_sel as [| s sel]; simpl.
  - symmetry. apply filter_true.
  - reflexivity.
Qed.

Lemma filter_team_test (team_sel : list string) (f : list Row) :
  filter_team team_sel f = filter (team_test team_sel) f.
Proof.
  unfold filter_team, team_test. destruct team_sel as [| t sel]; simpl.
  - symmetry. apply filter_true.
  - reflexivity.
Qed.

Lemma filter_swap {A : Type} (p q : A -> bool) (l : list A) :
  filter p (filter q l) = filter q (filter p l).
Proof.
  induction l as [| a l IH]; simpl; [reflexivity |].
  destruct (p a) eqn:Hp, (q a) eqn:Hq; simpl; rewrite ?Hp, ?Hq, IH; reflexivity.
Qed.

Lemma date_mask_spec (start_date end_date : Z) (r : Row) :
  date_mask start_date end_date r = true <->
  exists d, date r = Some d /\
            to_datetime_date start_date <= d <= to_datetime_date end_date.
Proof.
  unfold date_mask, ts_ge, ts_le. destruct (date r) as [d |]; simpl.
  - rewrite andb_true_iff, !Z.leb_le. split.
    + intros [H1 H2]. exists d. auto.
    + intros [d' [Heq H]]. injection Heq as <-. exact H.
  - split; [discriminate | intros [d [Heq _]]; discriminate].
Qed.

(** C3: an empty season selection leaves the frame as it is, and so does an
    empty team selection; the filtered view for an empty season selection is
    the one the date and team filters alone give, and for an empty team
    selection the one the season and date filters alone give. *)
Theorem empty_selection_is_identity (matches : list Row) (season_sel : list Z)
    (team_sel : list string) (start_date end_date : Z) :
  filter_season [] matches = matches /\
  filter_team [] matches = matches /\
  apply_filters [] team_sel start_date end_date matches =
    filter_team team_sel (filter_date start_date end_date matches) /\
  apply_filters season_sel [] start_date end_date matches =
    filter_date start_date end_date (filter_season season_sel matches).
Proof. repeat split. Qed.

(** For a row dated at midnight of day [k], the test is [start <= k <= end]
    on the days themselves. *)
Lemma date_mask_calendar_day (start_date end_date k : Z) (r : Row) :
  date r = Some (to_datetime_date k) ->
  date_mask start_date end_date r = (start_date <=? k) && (k <=? end_date).
Proof.
  intros Hd. unfold date_mask, ts_ge, ts_le. rewrite Hd.
  unfold to_datetime_date, ns_per_day. f_equal; apply eq_true_iff_eq; rewrite !Z.leb_le; lia.
Qed.

(** C4: the date filter keeps a row exactly when the row has a date [d] with
    [start <= d <= end], both bounds included, the bounds being the two
    picked days as timestamps; for a row dated on calendar day [k] that is
    [start <= k <= end] on the days; a row without a date is never kept. *)
Theorem date_filter_inclusive (f : list Row) (start_date end_date : Z) (r : Row) :
  (In r (filter_date start_date end_date f) <->
   In r f /\
   exists d, date r = Some d /\
             to_datetime_date start_date <= d <= to_datetime_date end_date) /\
  (forall k, date r = Some (to_datetime_date k) ->
             (In r (filter_date start_date end_date f) <->
              In r f /\ start_date <= k <= end_date)) /\
  (date r = None -> ~ In r (filter_date start_date end_date f)).
Proof.
  unfold filter_date. split; [| split].
  - rewrite filter_In, date_mask_spec. reflexivity.
  - intros k Hk. rewrite filter_In, (date_mask_calendar_day _ _ k r Hk).
    rewrite andb_true_iff, !Z.leb_le. reflexivity.
  - intros Hnone Hin. apply filter_In in Hin. destruct Hin as [_ Hmask].
    apply date_mask_spec in Hmask. destruct Hmask as [d [Hd _]]. congruence.
Qed.

(** The filter keeps the order and the multiplicity of the rows it keeps. *)
Lemma filter_date_sublist (f g : list Row) (start_date end_date : Z) :
  filter_date start_date end_date (f ++ g) =
  (filter_date start_date end_date f ++ filter_date start_date end_date g)%list.
Proof. apply filter_app. Qed.

(** C5: the three filter steps give the same frame in each of the six
    orders in which they can be applied. *)
Theorem filters_commute (matches : list Row) (season_sel : list Z)
    (team_sel : list string) (start_date end_date : Z) :
  let S := filter_season season_sel in
  let D := filter_date start_date end_date in
  let T := filter_team team_sel in
  let f := apply_filters season_sel team_sel start_date end_date matches in
  T (D (S matches)) = f /\ D (T (S matches)) = f /\ T (S (D matches)) = f /\
  S (T (D matches)) = f /\ D (S (T matches)) = f /\ S (D (T matches)) = f.
Proof.
  cbv zeta. unfold apply_filters, filter_date.
  rewrite !filter_season_test, !filter_team_test.
  set (s := season_test season_sel). set (t := team_test team_sel).
  set (d := date_mask start_date end_date).
  repeat split.
  - apply filter_swap.
  - now rewrite (filter_swap s d).
  - now rewrite (filter_swap s t), (filter_swap s d).
  - now rewrite (filter_swap s t), (filter_swap d t).
  - now rewrite (filter_swap d t), (filter_swap s t), (filter_swap s d).
Qed.

Lemma date_filter_inclusive_witness :
  date (loaded_row 2 None (Some 2020) "Mumbai") = None /\
  ~ In (loaded_row 2 None (Some 2020) "Mumbai")
       (filter_date 18262 18628
          [loaded_row 1 (Some ts_2020) (Some 2020) "Mumbai";
           loaded_row 2 None (Some 2020) "Mumbai"]).
Proof.
  split; [reflexivity |].
  apply (proj2 (proj2 (date_filter_inclusive
                  [loaded_row 1 (Some ts_2020) (Some 2020) "Mumbai";
                   loaded_row 2 None (Some 2020) "Mumbai"]
                  18262 18628 (loaded_row 2 None (Some 2020) "Mumbai")))).
  reflexivity.
Defined.

(** Both boundary days are kept: a match on the first and one on the last
    day of the range pass, one a day later does not. *)
Example date_filter_boundaries :
  map match_id
    (filter_date 18262 18628
       [loaded_row 1 (Some ts_2020) (Some 2020) "Mumbai";
        loaded_row 2 (Some ts_2021) (Some 2021) "Chennai";
        loaded_row 3 (Some (to_datetime_date 18629)) (Some 2021) "Chennai";
        loaded_row 4 None (Some 2021) "Chennai"])
  = [Some 1; Some 2].
Proof. reflexivity. Qed.

Lemma apply_filters_In (season_sel : list Z) (team_sel : list string)
    (start_date end_date : Z) (matches : list Row) (r : Row) :
  In r (apply_filters season_sel team_sel start_date end_date matches) <->
  In r matches /\ season_test season_sel r = true /\
  date_mask start_date end_date r = true /\ team_test team_sel r = true.
Proof.
  unfold apply_filters, filter_date.
  rewrite filter_season_test, filter_team_test, !filter_In. tauto.
Qed.

(** ** The empty-result guard *)

(** A run for a two-date range: the guard decides between the warning
    followed by [st.stop()] and the cards and charts over the filtered
    view. *)
Lemma dashboard_run (venue_col : bool) (matches : list Row) (season_sel : list Z)
    (team_sel : list string) (start_date end_date : Z) :
  dashboard venue_col matches season_sel team_sel [start_date; end_date] =
  let f := apply_filters season_sel team_sel start_date end_date matches in
  if truthy f then render venue_col f
  else ([st_warning NO_MATCHES_WARNING], inl Stopped).
Proof.
  unfold dashboard, apply_filters. simpl.
  destruct (filter_team team_sel _) as [| r f]; reflexivity.
Qed.



(** C9: when the filtered view is empty the run raises nothing: its only
    call is the warning, it ends in [st.stop()], and none of the metric or
    chart calls, which carry the aggregations, is made. *)
Theorem empty_result_stops_before_aggregation (venue_col : bool)
    (matches : list Row) (season_sel : list Z) (team_sel : list string)
    (start_date end_date : Z) :
  apply_filters season_sel team_sel start_date end_date matches = [] ->
  dashboard venue_col matches season_sel team_sel [start_date; end_date] =
    ([st_warning NO_MATCHES_WARNING], inl Stopped).
Proof. intros Hempty. rewrite dashboard_run. cbv zeta. now rewrite Hempty. Qed.

Lemma empty_result_stops_before_aggregation_witness :
  script three_lines [2020] ["Delhi"] [18262; 18628] =
    ([st_warning NO_MATCHES_WARNING], inl Stopped).
Proof.
  exact (empty_result_stops_before_aggregation (has_venue three_lines)
           (load_matches three_lines) [2020] ["Delhi"] 18262 18628 eq_refl).
Defined.

(** The same file with no team selected: the run reaches the cards and
    charts. *)
Example script_renders :
  snd (script three_lines [2020] [] [18262; 18628]) = inr tt /\
  hd_error (fst (script three_lines [2020] [] [18262; 18628]))
    = Some (st_metric "Matches" 1).
Proof. split; reflexivity. Qed.

(** ** The date filter on every run *)

Lemma load_matches_derived_season (raw : RawTable) (r : Row) :
  has_season raw = false -> In r (load_matches raw) ->
  season r = option_map dt_year (date r).
Proof.
  intros Hs Hin. rewrite load_matches_rowwise in Hin. apply in_map_iff in Hin.
  destruct Hin as [[line i] [<- _]]. unfold load_row. simpl. now rewrite Hs.
Qed.

(** C10: a run for a two-date range always goes through the date filter
    (the guard and the cards and charts see the view [f] it leaves); every
    row of [f] has a date, a row without one is in no filtered view, and
    when the loader derived [season] from [date] every row of [f] has a
    season, so no match falls into a missing-season group. *)
Theorem date_filter_is_unconditional (raw : RawTable) (venue_col : bool)
    (season_sel : list Z) (team_sel : list string) (start_date end_date : Z) :
  let matches := load_matches raw in
  let f := apply_filters season_sel team_sel start_date end_date matches in
  dashboard venue_col matches season_sel team_sel [start_date; end_date] =
    (if truthy f then render venue_col f
     else ([st_warning NO_MATCHES_WARNING], inl Stopped)) /\
  Forall (fun r => exists d, date r = Some d) f /\
  (forall r, date r = None -> ~ In r f) /\
  (has_season raw = false -> Forall (fun r => exists y, season r = Some y) f).
Proof.
  cbv zeta.
  assert (Hdate : forall r,
             In r (apply_filters season_sel team_sel start_date end_date
                     (load_matches raw)) ->
             exists d, date r = Some d).
  { intros r Hin. apply apply_filters_In in Hin.
    destruct Hin as [_ [_ [Hmask _]]]. apply date_mask_spec in Hmask.
    destruct Hmask as [d [Hd _]]. now exists d. }
  split; [apply dashboard_run |].
  split; [apply Forall_forall; exact Hdate |].
  split.
  - intros r Hnone Hin. destruct (Hdate r Hin) as [d Hd]. congruence.
  - intros Hs. apply Forall_forall. intros r Hin.
    destruct (Hdate r Hin) as [d Hd].
    apply apply_filters_In in Hin. destruct Hin as [Hin _].
    rewrite (load_matches_derived_season raw r Hs Hin), Hd.
    now exists (dt_year d).
Qed.

Lemma date_filter_is_unconditional_witness :
  has_season three_lines = false /\
  Forall (fun r => exists y, season r = Some y)
    (apply_filters [] [] 18262 18628 (load_matches three_lines)).
Proof.
  split; [reflexivity |].
  apply (proj2 (proj2 (proj2
           (date_filter_is_unconditional three_lines true [] [] 18262 18628)))).
  reflexivity.
Defined.

(** ** Group keys *)

Section SortedKeysFacts.
Context {K : Type} (cmp : K -> K -> comparison).
Hypothesis cmp_eq : forall a b, cmp a b = Eq <-> a = b.

Lemma key_eqb_eq (a b : K) : key_eqb cmp a b = true <-> a = b.
Proof.
  unfold key_eqb. rewrite <- cmp_eq.
  destruct (cmp a b); split; congruence.
Qed.

Lemma insert_key_In (k : K) (l : list K) (x : K) :
  In x (insert_key cmp k l) <-> x = k \/ In x l.
Proof.
  induction l as [| y l IH]; simpl.
  - intuition congruence.
  - destruct (cmp k y) eqn:Hc; simpl.
    + apply cmp_eq in Hc. subst. intuition congruence.
    + intuition congruence.
    + rewrite IH. intuition congruence.
Qed.

Lemma sorted_keys_In (l : list K) (x : K) :
  In x (sorted_keys cmp l) <-> In x l.
Proof.
  unfold sorted_keys. induction l as [| y l IH]; simpl.
  - reflexivity.
  - rewrite insert_key_In, IH. intuition congruence.
Qed.
End SortedKeysFacts.

Lemma insert_key_sorted (k : Z) (l : list Z) :
  StronglySorted Z.lt l -> StronglySorted Z.lt (insert_key Z.compare k l).
Proof.
  induction 1 as [| y l Hs IH Hall]; simpl.
  - repeat constructor.
  - destruct (Z.compare_spec k y) as [Heq | Hlt | Hgt].
    + now constructor.
    + constructor; [now constructor |].
      constructor; [exact Hlt |].
      rewrite Forall_forall in *. intros z Hz. specialize (Hall z Hz). lia.
    + constructor; [exact IH |].
      rewrite Forall_forall in *. intros z Hz.
      apply (insert_key_In Z.compare Z.compare_eq_iff) in Hz.
      destruct Hz as [-> | Hz]; [exact Hgt | now apply Hall].
Qed.

Lemma sorted_keys_sorted (l : list Z) : StronglySorted Z.lt (sorted_keys Z.compare l).
Proof.
  unfold sorted_keys. induction l as [| y l IH]; simpl.
  - constructor.
  - now apply insert_key_sorted.
Qed.

Lemma dropna_In {A : Type} (col : list (option A)) (x : A) :
  In x (dropna col) <-> In (Some x) col.
Proof.
  induction col as [| [y |] col IH]; simpl.
  - reflexivity.
  - rewrite IH. intuition congruence.
  - rewrite IH. intuition congruence.
Qed.

(** ** The season trend *)

Lemma season_counts_unfold (f : list Row) :
  season_counts f =
  map (fun s => (Some s, count_where (in_season s) f))
      (sorted_keys Z.compare (dropna (map season f))).
Proof.
  unfold season_counts, groupby_count. rewrite map_map. simpl.
  apply map_ext. intros s. f_equal. unfold count_where. do 2 f_equal.
  apply filter_ext. intros r. unfold in_season, key_eqb.
  destruct (season r) as [s' |]; [| reflexivity].
  rewrite Z.eqb_compare. reflexivity.
Qed.

(** C7, as the code has it: the trend has one entry for each season that
    is present on some row of the view, in ascending order of season, with
    the number of that season's rows that carry a [match_id]; rows whose
    season is missing are in no entry. *)
Theorem season_trend_series (f : list Row) :
  exists seasons : list Z,
    season_counts f = map (fun s => (Some s, count_where (in_season s) f)) seasons /\
    StronglySorted Z.lt seasons /\
    (forall s, In s seasons <-> In (Some s) (map season f)) /\
    (forall n, ~ In (None, n) (season_counts f)).
Proof.
  exists (sorted_keys Z.compare (dropna (map season f))).
  split; [apply season_counts_unfold |].
  split; [apply sorted_keys_sorted |].
  split.
  - intros s. rewrite (sorted_keys_In Z.compare Z.compare_eq_iff). apply dropna_In.
  - intros n Hin. rewrite season_counts_unfold in Hin. apply in_map_iff in Hin.
    destruct Hin as [s [Heq _]]. discriminate.
Qed.

(** When every row carries a [match_id], as after the loader's own
    numbering, the count of a season is the number of its rows. *)
Lemma in_season_count_rows (f : list Row) (s : Z) :
  Forall (fun r => match_id r <> None) f ->
  count_where (in_season s) f =
  count_where (fun r => isin_Z (season r) [s]) f.
Proof.
  intros Hall. unfold count_where. do 2 f_equal.
  induction Hall as [| r f Hr _ IH]; simpl; [reflexivity |].
  rewrite IH. unfold in_season.
  destruct (season r) as [s' |]; [| reflexivity].
  destruct (match_id r); [| contradiction]. simpl.
  now rewrite orb_false_r, andb_true_r.
Qed.

(** C7 as stated fails: the view has a match without season, and the trend
    has no entry for the missing season; its counts add up to 2 for 3
    matches. *)
Lemma season_trend_drops_missing_season :
  In None (map season view_with_missing_season) /\
  season_counts view_with_missing_season = [(Some 2020, 1); (Some 2021, 1)] /\
  forall n, ~ In (None, n) (season_counts view_with_missing_season).
Proof.
  split; [simpl; tauto |]. split; [reflexivity |].
  intros n [H | [H | []]]; discriminate.
Qed.

(** ** Value counts *)

Lemma unique_In (l : list string) (x : string) : In x (unique l) <-> In x l.
Proof.
  induction l as [| y l IH]; simpl; [reflexivity |].
  rewrite filter_In, IH, negb_true_iff, String.eqb_neq.
  destruct (String.eqb_spec x y); intuition congruence.
Qed.

Lemma unique_NoDup (l : list string) : NoDup (unique l).
Proof.
  induction l as [| y l IH]; simpl; constructor.
  - rewrite filter_In, negb_true_iff, String.eqb_neq. tauto.
  - now apply NoDup_filter.
Qed.

Lemma insert_desc_perm (x : string * Z) (l : list (string * Z)) :
  Permutation (insert_desc x l) (x :: l).
Proof.
  induction l as [| y l IH]; simpl; [reflexivity |].
  destruct (snd y <=? snd x); [reflexivity |].
  rewrite IH. apply perm_swap.
Qed.

Lemma sort_values_desc_perm (l : list (string * Z)) :
  Permutation (sort_values_desc l) l.
Proof.
  unfold sort_values_desc. induction l as [| x l IH]; simpl; [reflexivity |].
  rewrite insert_desc_perm. now constructor.
Qed.

Lemma insert_desc_sorted (x : string * Z) (l : list (string * Z)) :
  StronglySorted by_count_desc l -> StronglySorted by_count_desc (insert_desc x l).
Proof.
  unfold by_count_desc.
  induction 1 as [| y l Hs IH Hall]; simpl.
  - repeat constructor.
  - destruct (Z.leb_spec (snd y) (snd x)) as [Hle | Hgt].
    + constructor; [now constructor |].
      constructor; [exact Hle |].
      rewrite Forall_forall in *. intros z Hz. specialize (Hall z Hz).
      simpl in *. lia.
    + constructor; [exact IH |].
      rewrite Forall_forall in *. intros z Hz.
      apply (Permutation_in _ (insert_desc_perm x l)) in Hz.
      destruct Hz as [<- | Hz]; [simpl; lia | now apply Hall].
Qed.

Lemma sort_values_desc_sorted (l : list (string * Z)) :
  StronglySorted by_count_desc (sort_values_desc l).
Proof.
  unfold sort_values_desc. induction l as [| x l IH]; simpl.
  - constructor.
  - now apply insert_desc_sorted.
Qed.

Lemma value_counts_In (col : list string) (w : string) (n : Z) :
  In (w, n) (value_counts col) <-> In w col /\ n = count_where (String.eqb w) col.
Proof.
  unfold value_counts. split.
  - intros Hin. apply (Permutation_in _ (sort_values_desc_perm _)) in Hin.
    apply in_map_iff in Hin. destruct Hin as [k [Heq Hk]].
    injection Heq as -> <-. now rewrite <- unique_In.
  - intros [Hw ->]. apply (Permutation_in _ (Permutation_sym (sort_values_desc_perm _))).
    apply in_map_iff. exists w. now rewrite unique_In.
Qed.

Lemma value_counts_NoDup (col : list string) : NoDup (map fst (value_counts col)).
Proof.
  unfold value_counts.
  apply (Permutation_NoDup
           (Permutation_map fst (Permutation_sym (sort_values_desc_perm _)))).
  rewrite map_map. simpl. rewrite map_id. apply unique_NoDup.
Qed.

(** ** The win leaderboard *)

Lemma with_winner_In (f : list Row) (w : string) :
  In w (map winner (with_winner f)) <-> w <> NO_RESULT /\ In w (map winner f).
Proof.
  unfold with_winner. rewrite !in_map_iff. split.
  - intros [r [<- Hr]]. apply filter_In in Hr. destruct Hr as [Hr Hne].
    apply negb_true_iff, String.eqb_neq in Hne. split; [exact Hne | now exists r].
  - intros [Hne [r [<- Hr]]]. exists r. split; [reflexivity |].
    apply filter_In. split; [exact Hr |].
    now apply negb_true_iff, String.eqb_neq.
Qed.

Lemma with_winner_count (f : list Row) (w : string) :
  w <> NO_RESULT ->
  count_where (String.eqb w) (map winner (with_winner f)) = wins_of w f.
Proof.
  intros Hne. unfold wins_of, count_where, with_winner. f_equal.
  induction f as [| r f IH]; simpl; [reflexivity |].
  rewrite (String.eqb_sym (winner r) w).
  destruct (String.eqb_spec (winner r) NO_RESULT) as [Heq | Hneq]; simpl.
  - destruct (String.eqb_spec w (winner r)) as [-> | _]; [contradiction | exact IH].
  - destruct (String.eqb w (winner r)); simpl; now rewrite IH.
Qed.

(** C6, as the code has it: the leaderboard is the first ten entries of the
    win counts; these list each team that won a match of the view once,
    never "No Result", with the number of matches it won, larger counts
    first.  Among equal counts pandas does not order by name. *)
Theorem win_leaderboard (f : list Row) :
  win_counts f = firstn 10 (wins f) /\
  (length (win_counts f) <= 10)%nat /\
  StronglySorted by_count_desc (wins f) /\
  NoDup (map fst (wins f)) /\
  (forall w n, In (w, n) (wins f) <->
               w <> NO_RESULT /\ In w (map winner f) /\ n = wins_of w f).
Proof.
  unfold win_counts, wins.
  split; [reflexivity |].
  split; [apply firstn_le_length |].
  split; [apply sort_values_desc_sorted |].
  split; [apply value_counts_NoDup |].
  intros w n. rewrite value_counts_In, with_winner_In. split.
  - intros [[Hne Hin] ->]. now rewrite with_winner_count.
  - intros [Hne [Hin ->]]. now rewrite with_winner_count.
Qed.

(** Scenario C of the specification. *)
Example scenario_C :
  win_counts view_scenario_C = [("Mumbai", 2); ("Chennai", 1)].
Proof. reflexivity. Qed.

(** C6 as stated fails: with one win each, Mumbai is listed before Chennai,
    against the ascending order of names. *)
Lemma leaderboard_ties_not_by_name :
  win_counts view_with_tie = [("Mumbai", 1); ("Chennai", 1)] /\
  ~ StronglySorted by_count_then_name (win_counts view_with_tie).
Proof.
  split; [reflexivity |].
  intros Hs.
  change (win_counts view_with_tie) with [("Mumbai", 1); ("Chennai", 1)] in Hs.
  apply StronglySorted_inv in Hs. destruct Hs as [_ Hall].
  apply Forall_inv in Hall. unfold by_count_then_name in Hall. simpl in Hall.
  destruct Hall as [Hlt | [_ Hname]]; [lia | discriminate].
Qed.

(** ** The win matrix *)

Lemma string_compare_eq (a b : string) : String.compare a b = Eq <-> a = b.
Proof.
  split; [apply String.compare_eq_iff |]. intros ->.
  pose proof (String.compare_antisym b b) as H.
  destruct (String.compare b b); simpl in H; congruence.
Qed.

Lemma pair_compare_eq (a b : Z * string) : pair_compare a b = Eq <-> a = b.
Proof.
  destruct a as [s w], b as [s' w']. unfold pair_compare. simpl.
  destruct (Z.compare_spec s s') as [-> | Hlt | Hgt].
  - rewrite string_compare_eq. split; congruence.
  - split; [discriminate | intros H; injection H as -> _; lia].
  - split; [discriminate | intros H; injection H as -> _; lia].
Qed.

Lemma count_where_filter {A : Type} (p q : A -> bool) (l : list A) :
  count_where p (filter q l) = count_where (fun a => q a && p a) l.
Proof.
  unfold count_where. do 2 f_equal.
  induction l as [| a l IH]; simpl; [reflexivity |].
  destruct (q a); simpl; [destruct (p a) |]; now rewrite IH.
Qed.

Lemma count_where_none {A : Type} (p : A -> bool) (l : list A) :
  (forall a, In a l -> p a = false) -> count_where p l = 0.
Proof.
  intros Hnone. unfold count_where.
  induction l as [| a l IH]; simpl; [reflexivity |].
  rewrite (Hnone a (or_introl eq_refl)). apply IH.
  intros b Hb. apply Hnone. now right.
Qed.

Lemma win_matrix_unfold (f : list Row) :
  win_matrix f = map (fun k => (k, count_where (is_win_of (snd k) (fst k)) f)) (win_keys f).
Proof.
  unfold win_matrix, groupby_count, win_keys. apply map_ext. intros [s w].
  f_equal. unfold with_winner. rewrite count_where_filter. reflexivity.
Qed.

Lemma win_keys_In (f : list Row) (s : Z) (w : string) :
  In (s, w) (win_keys f) <->
  exists r, In r f /\ winner r <> NO_RESULT /\ season r = Some s /\ winner r = w.
Proof.
  unfold win_keys. rewrite (sorted_keys_In pair_compare pair_compare_eq).
  rewrite dropna_In, in_map_iff. unfold with_winner, win_key. split.
  - intros [r [Hkey Hr]]. apply filter_In in Hr. destruct Hr as [Hr Hne].
    apply negb_true_iff, String.eqb_neq in Hne. exists r.
    destruct (season r) as [s' |]; [| discriminate].
    injection Hkey as -> <-. auto.
  - intros [r [Hr [Hne [Hs Hw]]]]. exists r. rewrite Hs, Hw. split; [reflexivity |].
    apply filter_In. split; [exact Hr |].
    now apply negb_true_iff, String.eqb_neq.
Qed.

Lemma is_win_of_key (f : list Row) (s : Z) (w : string) (r : Row) :
  In r f -> is_win_of w s r = true -> In (s, w) (win_keys f).
Proof.
  intros Hr Hwin. unfold is_win_of in Hwin.
  apply andb_true_iff in Hwin. destruct Hwin as [Hne Hkey].
  apply negb_true_iff, String.eqb_neq in Hne.
  apply win_keys_In. exists r. unfold win_key in Hkey.
  destruct (season r) as [s' |]; [| discriminate].
  apply andb_true_iff in Hkey. destruct Hkey as [Hkey _].
  apply (key_eqb_eq pair_compare pair_compare_eq) in Hkey.
  injection Hkey as Hs Hw. subst. repeat split; auto.
Qed.

Lemma long_lookup_keys (c : Z * string -> Z) (keys : list (Z * string))
    (w : string) (s : Z) :
  long_lookup (map (fun k => (k, c k)) keys) w s =
  if existsb (fun k => Z.eqb (fst k) s && String.eqb (snd k) w) keys
  then Some (c (s, w)) else None.
Proof.
  induction keys as [| [s' w'] keys IH]; simpl; [reflexivity |].
  destruct (Z.eqb_spec s' s) as [-> | Hs]; simpl; [| exact IH].
  destruct (String.eqb_spec w' w) as [-> | Hw]; simpl; [reflexivity | exact IH].
Qed.

(** A cell of the filled grid holds the number of wins of the pair, which
    is 0 for a pair without a group. *)
Lemma filled_cell (f : list Row) (w : string) (s : Z) :
  fillna 0 (long_lookup (win_matrix f) w s) = count_where (is_win_of w s) f.
Proof.
  rewrite win_matrix_unfold.
  rewrite (long_lookup_keys (fun k => count_where (is_win_of (snd k) (fst k)) f)).
  destruct (existsb _ (win_keys f)) eqn:Hex; simpl; [reflexivity |].
  symmetry. apply count_where_none. intros r Hr.
  destruct (is_win_of w s r) eqn:Hwin; [| reflexivity].
  apply (is_win_of_key f s w r Hr) in Hwin.
  assert (Hcontra : existsb (fun k => Z.eqb (fst k) s && String.eqb (snd k) w)
                      (win_keys f) = true).
  { apply existsb_exists. exists (s, w). split; [exact Hwin |].
    simpl. now rewrite Z.eqb_refl, String.eqb_refl. }
  congruence.
Qed.

Section Axis.
Context {A : Type} (eqb : A -> A -> bool).
Hypothesis eqb_eq : forall a b, eqb a b = true <-> a = b.

Lemma index_of_In (x : A) (l : list A) :
  In x l -> exists i, index_of eqb x l = Some i /\ nth_error l i = Some x.
Proof.
  induction l as [| y l IH]; simpl; [contradiction |].
  intros Hin. destruct (eqb x y) eqn:Hxy.
  - apply eqb_eq in Hxy. subst. now exists O.
  - destruct Hin as [-> | Hin].
    + assert (eqb x x = true) by now apply eqb_eq. congruence.
    + destruct (IH Hin) as [i [Hi Hnth]]. exists (S i). now rewrite Hi.
Qed.

Lemma index_of_not_In (x : A) (l : list A) :
  ~ In x l -> index_of eqb x l = None.
Proof.
  induction l as [| y l IH]; simpl; [reflexivity |].
  intros Hnot. destruct (eqb x y) eqn:Hxy.
  - apply eqb_eq in Hxy. subst. tauto.
  - rewrite IH; tauto.
Qed.
End Axis.

Lemma win_pivot_unfold (f : list Row) :
  win_pivot f =
  let idx := sorted_keys String.compare (map snd (win_keys f)) in
  let cols := sorted_keys Z.compare (map fst (win_keys f)) in
  mkGrid idx cols
    (map (fun w => map (fun s => count_where (is_win_of w s) f) cols) idx).
Proof.
  unfold win_pivot, grid_fillna, pivot. simpl.
  assert (Hw : map (fun e : Z * string * Z => snd (fst e)) (win_matrix f)
               = map snd (win_keys f)).
  { rewrite win_matrix_unfold, map_map. reflexivity. }
  assert (Hs : map (fun e : Z * string * Z => fst (fst e)) (win_matrix f)
               = map fst (win_keys f)).
  { rewrite win_matrix_unfold, map_map. reflexivity. }
  rewrite Hw, Hs. f_equal. rewrite map_map. apply map_ext. intros w.
  rewrite map_map. apply map_ext. intros s. apply filled_cell.
Qed.

Lemma grid_cell_dense {V : Type} (idx : list string) (cols : list Z)
    (F : string -> Z -> V) (w : string) (s : Z) :
  In w idx -> In s cols ->
  grid_cell (mkGrid idx cols (map (fun w' => map (F w') cols) idx)) w s
  = Some (F w s).
Proof.
  intros Hw Hs. unfold grid_cell. simpl.
  destruct (index_of_In String.eqb String.eqb_eq w idx Hw) as [i [Hi Hnth]].
  destruct (index_of_In Z.eqb Z.eqb_eq s cols Hs) as [j [Hj Hnth']].
  rewrite Hi, Hj.
  rewrite (map_nth_error _ _ _ Hnth). now apply map_nth_error.
Qed.

(** C8, as the code has it: the win matrix is a rectangular grid whose rows
    are the teams and whose columns are the seasons of the matches of the
    view that have a winner and a season; for every such team and every
    such season there is a cell, holding the number of matches the team won
    in the season (those that carry a [match_id]), which is 0 when there is
    none. *)
Theorem win_matrix_dense (f : list Row) :
  let g := win_pivot f in
  length (grid_values g) = length (grid_index g) /\
  Forall (fun line => length line = length (grid_columns g)) (grid_values g) /\
  (forall w, In w (grid_index g) <->
             exists r, In r f /\ winner r <> NO_RESULT /\
                       season r <> None /\ winner r = w) /\
  (forall s, In s (grid_columns g) <->
             exists r, In r f /\ winner r <> NO_RESULT /\ season r = Some s) /\
  (forall w s, In w (grid_index g) -> In s (grid_columns g) ->
               grid_cell g w s = Some (count_where (is_win_of w s) f) /\
               ((forall r, In r f -> is_win_of w s r = false) ->
                grid_cell g w s = Some 0)).
Proof.
  rewrite win_pivot_unfold. cbv zeta. simpl.
  split; [now rewrite length_map |].
  split.
  { apply Forall_forall. intros line Hline. apply in_map_iff in Hline.
    destruct Hline as [w [<- _]]. now rewrite length_map. }
  split.
  { intros w. rewrite (sorted_keys_In String.compare string_compare_eq).
    rewrite in_map_iff. split.
    - intros [[s w'] [Heq Hk]]. simpl in Heq. subst w'.
      apply win_keys_In in Hk. destruct Hk as [r [Hr [Hne [Hs Hw]]]].
      exists r. repeat split; auto. congruence.
    - intros [r [Hr [Hne [Hs Hw]]]]. destruct (season r) as [s |] eqn:Hsr; [| tauto].
      exists (s, w). split; [reflexivity |]. apply win_keys_In. now exists r. }
  split.
  { intros s. rewrite (sorted_keys_In Z.compare Z.compare_eq_iff).
    rewrite in_map_iff. split.
    - intros [[s' w] [Heq Hk]]. simpl in Heq. subst s'.
      apply win_keys_In in Hk. destruct Hk as [r [Hr [Hne [Hs Hw]]]].
      now exists r.
    - intros [r [Hr [Hne Hs]]]. exists (s, winner r). split; [reflexivity |].
      apply win_keys_In. now exists r. }
  intros w s Hw Hs.
  rewrite (grid_cell_dense _ _ (fun w' s' => count_where (is_win_of w' s') f) w s Hw Hs).
  split; [reflexivity |].
  intros Hnone. now rewrite count_where_none.
Qed.

Lemma win_matrix_dense_witness :
  In "Mumbai" (grid_index (win_pivot view_with_washed_out_season)) /\
  In 2022 (grid_columns (win_pivot view_with_washed_out_season)) /\
  grid_cell (win_pivot view_with_washed_out_season) "Mumbai" 2022 = Some 0.
Proof.
  assert (Hw : In "Mumbai" (grid_index (win_pivot view_with_washed_out_season)))
    by (vm_compute; tauto).
  assert (Hs : In 2022 (grid_columns (win_pivot view_with_washed_out_season)))
    by (vm_compute; tauto).
  split; [exact Hw |]. split; [exact Hs |].
  apply (proj2 (proj2 (proj2 (proj2 (proj2
           (win_matrix_dense view_with_washed_out_season)))) "Mumbai" 2022 Hw Hs)).
  intros r Hr. simpl in Hr.
  destruct Hr as [<- | [<- | [<- | [<- | []]]]]; reflexivity.
Defined.

(** C8 as stated fails: season 2020 and the winner Mumbai both occur in the
    view, but 2020 has no match with a winner, so the grid has no column
    for it and no cell for the pair. *)
Lemma win_matrix_misses_washed_out_season :
  In (Some 2020) (map season view_with_washed_out_season) /\
  In "Mumbai" (map winner view_with_washed_out_season) /\
  grid_columns (win_pivot view_with_washed_out_season) = [2021; 2022] /\
  grid_cell (win_pivot view_with_washed_out_season) "Mumbai" 2020 = None.
Proof. repeat split; simpl; tauto. Qed.

(** ** Totals of grouped counts *)

Lemma count_where_nonneg {A : Type} (p : A -> bool) (l : list A) :
  0 <= count_where p l.
Proof. unfold count_where. lia. Qed.

Lemma count_where_cons {A : Type} (p : A -> bool) (a : A) (l : list A) :
  count_where p (a :: l) = (if p a then 1 else 0) + count_where p l.
Proof.
  unfold count_where. cbn [filter]. destruct (p a); cbn [length]; lia.
Qed.

Lemma count_where_ext {A : Type} (p q : A -> bool) (l : list A) :
  (forall a, In a l -> p a = q a) -> count_where p l = count_where q l.
Proof.
  intros Hext. induction l as [| a l IH]; [reflexivity |].
  rewrite !count_where_cons, (Hext a (or_introl eq_refl)), IH; [reflexivity |].
  intros b Hb. apply Hext. now right.
Qed.

Lemma count_where_all {A : Type} (p : A -> bool) (l : list A) :
  (forall a, In a l -> p a = true) -> count_where p l = Z.of_nat (length l).
Proof.
  intros Hall. induction l as [| a l IH]; [reflexivity |].
  rewrite count_where_cons, (Hall a (or_introl eq_refl)), IH.
  - cbn [length]. lia.
  - intros b Hb. apply Hall. now right.
Qed.

Lemma count_where_split {A : Type} (p : A -> bool) (l : list A) :
  count_where p l + count_where (fun a => negb (p a)) l = Z.of_nat (length l).
Proof.
  induction l as [| a l IH]; [reflexivity |].
  rewrite !count_where_cons. cbn [length]. destruct (p a); cbn [negb]; lia.
Qed.

Lemma count_where_or {A : Type} (p q : A -> bool) (l : list A) :
  (forall a, In a l -> p a = true -> q a = false) ->
  count_where (fun a => p a || q a) l = count_where p l + count_where q l.
Proof.
  intros Hdis. induction l as [| a l IH]; [reflexivity |].
  rewrite !count_where_cons, IH by (intros b Hb; apply Hdis; now right).
  pose proof (Hdis a (or_introl eq_refl)) as Ha.
  destruct (p a); cbn [orb]; [rewrite Ha by reflexivity |]; lia.
Qed.

Lemma sum_counts_perm {K : Type} (l l' : list (K * Z)) :
  Permutation l l' -> sum_counts l = sum_counts l'.
Proof.
  unfold sum_counts. induction 1; simpl; lia.
Qed.

Section GroupTotals.
Context {K R : Type} (belongs : K -> R -> bool).
Hypothesis one_group :
  forall k k' r, belongs k r = true -> belongs k' r = true -> k = k'.

(** Over distinct keys the group counts add up to the number of rows that
    belong to one of the groups. *)
Lemma sum_group_counts (keys : list K) (rows : list R) :
  NoDup keys ->
  sum_counts (map (fun k => (k, count_where (belongs k) rows)) keys) =
  count_where (fun r => existsb (fun k => belongs k r) keys) rows.
Proof.
  induction 1 as [| k keys Hnotin Hnd IH]; simpl.
  - symmetry. now apply count_where_none.
  - rewrite IH. symmetry. apply count_where_or.
    intros r _ Hk. destruct (existsb _ keys) eqn:Hex; [| reflexivity].
    apply existsb_exists in Hex. destruct Hex as [k' [Hk' Hb]].
    rewrite (one_group k k' r Hk Hb) in Hnotin. contradiction.
Qed.
End GroupTotals.

Lemma value_counts_total (col : list string) :
  sum_counts (value_counts col) = Z.of_nat (length col).
Proof.
  unfold value_counts.
  rewrite (sum_counts_perm _ _ (sort_values_desc_perm _)).
  rewrite (sum_group_counts String.eqb).
  - apply count_where_all. intros x Hx. apply existsb_exists.
    exists x. split; [now apply unique_In | apply String.eqb_refl].
  - intros k k' r Hk Hk'. apply String.eqb_eq in Hk, Hk'. congruence.
  - apply unique_NoDup.
Qed.

(** The slices of the pie add up to the number of matches of the view, and
    so do the win counts of all teams together with the "No Result" card. *)
Theorem counts_add_up (f : list Row) :
  sum_counts (result_counts f) = total_matches f /\
  sum_counts (wins f) + no_result f = total_matches f.
Proof.
  unfold result_counts, wins, total_matches, no_result, with_winner.
  rewrite !value_counts_total, !length_map. split; [reflexivity |].
  pose proof (count_where_split (fun r => String.eqb (winner r) NO_RESULT) f) as H.
  unfold count_where in *. lia.
Qed.

(** ** The loaded table, column by column *)




Lemma load_matches_row (raw : RawTable) (r : Row) :
  In r (load_matches raw) -> exists l i, r = load_row raw l i.
Proof.
  rewrite load_matches_rowwise. intros Hin. apply in_map_iff in Hin.
  destruct Hin as [[l i] [<- _]]. now exists l, i.
Qed.

Lemma result_type_spec_cases (w : string) (runs wickets : option Z) :
  In (result_type_spec w runs wickets) RESULT_TYPES /\
  (result_type_spec w runs wickets = "No Result" <-> w = "No Result") /\
  (result_type_spec w runs wickets = "Won by Runs" ->
   exists n, runs = Some n /\ 0 < n) /\
  (result_type_spec w runs wickets = "Won by Wickets" ->
   exists n, wickets = Some n /\ 0 < n).
Proof.
  unfold result_type_spec, RESULT_TYPES.
  destruct (String.eqb_spec w "No Result") as [-> | Hw].
  { simpl. repeat split; auto; discriminate. }
  destruct runs as [n |], wickets as [k |]; simpl;
    repeat match goal with
           | |- context [0 <? ?x] => destruct (Z.ltb_spec 0 x)
           end;
    simpl; repeat split; try tauto; try discriminate; try congruence;
    intros _; eexists; split; try reflexivity; assumption.
Qed.

Lemma loaded_row_result_type (raw : RawTable) (r : Row) :
  In r (load_matches raw) ->
  In (result_type r) RESULT_TYPES /\
  (result_type r = "No Result" <-> winner r = "No Result") /\
  (result_type r = "Won by Runs" -> exists n, win_by_runs r = Some n /\ 0 < n) /\
  (result_type r = "Won by Wickets" ->
   exists n, win_by_wickets r = Some n /\ 0 < n).
Proof.
  intros Hr. destruct (load_matches_row raw r Hr) as [l [i ->]].
  rewrite load_row_result_type. apply result_type_spec_cases.
Qed.

(** In the loaded table [result_type] is one of the four labels; it is
    "No Result" exactly for the rows whose winner is "No Result"; a row
    labelled "Won by Runs" has a positive runs margin and a row labelled
    "Won by Wickets" a positive wickets margin. *)
Theorem loaded_result_types (raw : RawTable) :
  Forall (fun r =>
            In (result_type r) RESULT_TYPES /\
            (result_type r = "No Result" <-> winner r = "No Result") /\
            (result_type r = "Won by Runs" ->
             exists n, win_by_runs r = Some n /\ 0 < n) /\
            (result_type r = "Won by Wickets" ->
             exists n, win_by_wickets r = Some n /\ 0 < n))
         (load_matches raw).
Proof.
  apply Forall_forall. intros r Hr. exact (loaded_row_result_type raw r Hr).
Qed.

(** ** Cards and charts over one view *)

Lemma count_where_map {A B : Type} (p : B -> bool) (g : A -> B) (l : list A) :
  count_where p (map g l) = count_where (fun a => p (g a)) l.
Proof.
  induction l as [| a l IH]; [reflexivity |].
  cbn [map]. now rewrite !count_where_cons, IH.
Qed.

Lemma count_where_pos {A : Type} (p : A -> bool) (l : list A) :
  0 < count_where p l <-> exists a, In a l /\ p a = true.
Proof.
  split.
  - intros Hpos. destruct (filter p l) as [| a l'] eqn:Hf.
    + unfold count_where in Hpos. rewrite Hf in Hpos. simpl in Hpos. lia.
    + exists a. apply filter_In. rewrite Hf. now left.
  - intros [a [Ha Hp]]. unfold count_where.
    assert (Hin : In a (filter p l)) by now apply filter_In.
    destruct (filter p l); [contradiction | cbn [length]; lia].
Qed.

Lemma view_of_loaded (raw : RawTable) (season_sel : list Z)
    (team_sel : list string) (start_date end_date : Z) (r : Row) :
  In r (apply_filters season_sel team_sel start_date end_date (load_matches raw)) ->
  In r (load_matches raw).
Proof. intros Hin. now apply apply_filters_In in Hin. Qed.

(** Over any view of a loaded file the "No Result" card and the
    "No Result" slice of the pie show the same number: the slice, when
    there is one, has the count of the card, and there is one as soon as
    the card is not 0. *)
Theorem no_result_card_is_pie_slice (raw : RawTable) (season_sel : list Z)
    (team_sel : list string) (start_date end_date : Z) :
  let f := apply_filters season_sel team_sel start_date end_date
             (load_matches raw) in
  (forall n, In ("No Result", n) (result_counts f) -> n = no_result f) /\
  (0 < no_result f -> In ("No Result", no_result f) (result_counts f)).
Proof.
  cbv zeta.
  set (f := apply_filters season_sel team_sel start_date end_date (load_matches raw)).
  assert (Hrow : forall r, In r f ->
                   (result_type r = "No Result" <-> winner r = "No Result")).
  { intros r Hr. unfold f in Hr. apply view_of_loaded in Hr.
    apply (loaded_row_result_type raw r Hr). }
  assert (Hcount : count_where (String.eqb "No Result") (map result_type f)
                   = no_result f).
  { rewrite count_where_map. unfold no_result. apply count_where_ext.
    intros r Hr. specialize (Hrow r Hr). unfold NO_RESULT.
    destruct (String.eqb_spec "No Result" (result_type r)) as [He | Hne];
      destruct (String.eqb_spec (winner r) "No Result") as [Hw | Hnw];
      try reflexivity; exfalso.
    - apply Hnw, Hrow. congruence.
    - apply Hne. symmetry. now apply Hrow. }
  unfold result_counts. split.
  - intros n Hin. apply value_counts_In in Hin. destruct Hin as [_ ->].
    exact Hcount.
  - intros Hpos. apply value_counts_In. split; [| now rewrite Hcount].
    apply count_where_pos in Hpos. destruct Hpos as [r [Hr Hw]].
    apply String.eqb_eq in Hw. apply in_map_iff. exists r.
    split; [now apply Hrow | exact Hr].
Qed.

Lemma no_result_card_is_pie_slice_witness :
  0 < no_result (apply_filters [] [] 18262 18628 (load_matches three_lines)) /\
  In ("No Result", 1)
     (result_counts (apply_filters [] [] 18262 18628 (load_matches three_lines))).
Proof.
  split; [reflexivity |].
  apply (proj2 (no_result_card_is_pie_slice three_lines [] [] 18262 18628)).
  reflexivity.
Defined.

Lemma wins_of_winner (f : list Row) (w : string) :
  0 < wins_of w f <-> In w (map winner f).
Proof.
  unfold wins_of. rewrite count_where_pos, in_map_iff. split.
  - intros [r [Hr Hw]]. apply String.eqb_eq in Hw. now exists r.
  - intros [r [Hw Hr]]. exists r. split; [exact Hr | now apply String.eqb_eq].
Qed.

Lemma wins_entry (f : list Row) (w : string) (n : Z) :
  In (w, n) (wins f) <->
  w <> NO_RESULT /\ In w (map winner f) /\ n = wins_of w f.
Proof.
  unfold wins. rewrite value_counts_In, with_winner_In. split.
  - intros [[Hne Hin] ->]. now rewrite with_winner_count.
  - intros [Hne [Hin ->]]. now rewrite with_winner_count.
Qed.

(** The "Top Winner" card: when no match of the view has a winner it shows
    "N/A" with 0 wins; otherwise it shows a team that won a match of the
    view, never "No Result", with the number of matches that team won, and
    no team won more. *)
Theorem top_winner_card (f : list Row) :
  ((forall r, In r f -> winner r = NO_RESULT) ->
   top_team f = "N/A" /\ top_team_wins f = 0) /\
  ((exists r, In r f /\ winner r <> NO_RESULT) ->
   top_team f <> NO_RESULT /\ In (top_team f) (map winner f) /\
   top_team_wins f = wins_of (top_team f) f /\ 0 < top_team_wins f /\
   forall w, w <> NO_RESULT -> wins_of w f <= top_team_wins f).
Proof.
  unfold top_team, top_team_wins. split.
  - intros Hall. destruct (wins f) as [| [t n] rest] eqn:Hwins; [now split |].
    assert (Hin : In (t, n) (wins f)) by (rewrite Hwins; now left).
    apply wins_entry in Hin. destruct Hin as [Hne [Hin _]].
    apply in_map_iff in Hin. destruct Hin as [r [Hw Hr]].
    rewrite (Hall r Hr) in Hw. congruence.
  - intros [r [Hr Hne]].
    assert (Hin : In (winner r, wins_of (winner r) f) (wins f)).
    { apply wins_entry. repeat split; [exact Hne | now apply in_map]. }
    pose proof (sort_values_desc_sorted
                  (map (fun k => (k, count_where (String.eqb k)
                                       (map winner (with_winner f))))
                       (unique (map winner (with_winner f))))) as Hsorted.
    fold (value_counts (map winner (with_winner f))) in Hsorted.
    fold (wins f) in Hsorted.
    destruct (wins f) as [| [t n] rest] eqn:Hwins; [contradiction |].
    assert (Hhead : In (t, n) (wins f)) by (rewrite Hwins; now left).
    apply wins_entry in Hhead. destruct Hhead as [Ht [Htin ->]].
    repeat split; try assumption.
    + now apply wins_of_winner.
    + intros w Hw.
      destruct (in_dec string_dec w (map winner f)) as [Hwin | Hnot].
      * assert (Hentry : In (w, wins_of w f) (wins f))
          by (apply wins_entry; auto).
        rewrite Hwins in Hentry. destruct Hentry as [Heq | Hrest].
        { injection Heq as <- _. lia. }
        apply StronglySorted_inv in Hsorted. destruct Hsorted as [_ Hall].
        rewrite Forall_forall in Hall. exact (Hall _ Hrest).
      * assert (wins_of w f <= 0).
        { destruct (Z.lt_ge_cases 0 (wins_of w f)) as [Hpos | Hle]; [| lia].
          apply wins_of_winner in Hpos. contradiction. }
        assert (0 < wins_of t f) by now apply wins_of_winner.
        lia.
Qed.

Lemma top_winner_card_witness :
  (top_team (filter_team ["Delhi"] view_scenario_C) = "N/A" /\
   top_team_wins (filter_team ["Delhi"] view_scenario_C) = 0) /\
  top_team view_scenario_C <> NO_RESULT /\
  top_team_wins view_scenario_C = wins_of (top_team view_scenario_C) view_scenario_C.
Proof.
  split.
  - apply (proj1 (top_winner_card (filter_team ["Delhi"] view_scenario_C))).
    intros r [].
  - assert (Hex : exists r, In r view_scenario_C /\ winner r <> NO_RESULT).
    { exists (mkRow (Some 1) (Some ts_2020) (Some 2020) "Mumbai" "Chennai" "Mumbai"
                (Some "Wankhede") (Some 20) (Some 0) "Won by Runs").
      split; [left; reflexivity | discriminate]. }
    destruct (proj2 (top_winner_card view_scenario_C) Hex) as [H1 [_ [H3 _]]].
    split; [exact H1 | exact H3].
Defined.

(** The scatter has one point for each match of the view that has a
    winner; no point has a missing margin (a missing margin is plotted as
    0), and everything else on a point is as in the view. *)
Theorem scatter_points (f : list Row) :
  Z.of_nat (length (scatter_rows f)) = total_matches f - no_result f /\
  Forall (fun r => winner r <> NO_RESULT /\
                   exists a b, win_by_runs r = Some a /\ win_by_wickets r = Some b)
         (scatter_rows f) /\
  map (fun r => (match_id r, date r, season r, team1 r, team2 r, winner r,
                 venue r, result_type r)) (scatter_rows f)
  = map (fun r => (match_id r, date r, season r, team1 r, team2 r, winner r,
                   venue r, result_type r)) (with_winner f) /\
  map (fun r => (win_by_runs r, win_by_wickets r)) (scatter_rows f)
  = map (fun r => (Some (fillna 0 (win_by_runs r)),
                   Some (fillna 0 (win_by_wickets r)))) (with_winner f).
Proof.
  unfold scatter_rows. split; [| split; [| split]].
  - rewrite length_map. unfold total_matches, no_result, with_winner.
    pose proof (count_where_split (fun r => String.eqb (winner r) NO_RESULT) f) as H.
    unfold count_where in *. lia.
  - apply Forall_forall. intros r Hr. apply in_map_iff in Hr.
    destruct Hr as [r0 [<- Hr0]]. simpl. unfold with_winner in Hr0.
    apply filter_In in Hr0. destruct Hr0 as [_ Hne].
    apply negb_true_iff, String.eqb_neq in Hne. split; [exact Hne |].
    now eexists; eexists.
  - now rewrite map_map.
  - now rewrite map_map.
Qed.

(** ** What a view contains *)

Lemma isin_Z_spec (x : option Z) (values : list Z) :
  isin_Z x values = true <-> exists y, x = Some y /\ In y values.
Proof.
  unfold isin_Z. destruct x as [v |].
  - rewrite existsb_exists. split.
    + intros [y [Hy Heq]]. apply Z.eqb_eq in Heq. subst. now exists y.
    + intros [y [Heq Hy]]. injection Heq as ->. exists y.
      split; [exact Hy | apply Z.eqb_refl].
  - split; [discriminate | intros [y [Heq _]]; discriminate].
Qed.

Lemma isin_str_spec (x : string) (values : list string) :
  isin_str x values = true <-> In x values.
Proof.
  unfold isin_str. rewrite existsb_exists. split.
  - intros [y [Hy Heq]]. apply String.eqb_eq in Heq. now subst.
  - intros Hx. exists x. split; [exact Hx | apply String.eqb_refl].
Qed.

Lemma season_test_spec (season_sel : list Z) (r : Row) :
  season_test season_sel r = true <->
  season_sel = [] \/ exists y, season r = Some y /\ In y season_sel.
Proof.
  unfold season_test, season_mask. rewrite orb_true_iff, isin_Z_spec.
  destruct season_sel as [| y sel]; simpl; split; auto.
  intros [H | H]; [discriminate | now right].
  intros [H | H]; [discriminate | now right].
Qed.

Lemma team_test_spec (team_sel : list string) (r : Row) :
  team_test team_sel r = true <->
  team_sel = [] \/ In (team1 r) team_sel \/ In (team2 r) team_sel.
Proof.
  unfold team_test, team_mask.
  rewrite !orb_true_iff, !isin_str_spec.
  destruct team_sel as [| t sel]; simpl; split; auto.
  intros [H | H]; [discriminate | now right].
  intros [H | H]; [discriminate | now right].
Qed.

(** A row of the table is in the view exactly when it passes all three
    criteria: its season is one of the selected seasons (or none is
    selected), its date lies in the range, and one of its two teams is among
    the selected teams (or none is selected). *)
Theorem view_membership (season_sel : list Z) (team_sel : list string)
    (start_date end_date : Z) (matches : list Row) (r : Row) :
  In r (apply_filters season_sel team_sel start_date end_date matches) <->
  In r matches /\
  (season_sel = [] \/ exists y, season r = Some y /\ In y season_sel) /\
  (exists d, date r = Some d /\
             to_datetime_date start_date <= d <= to_datetime_date end_date) /\
  (team_sel = [] \/ In (team1 r) team_sel \/ In (team2 r) team_sel).
Proof.
  rewrite apply_filters_In, season_test_spec, date_mask_spec, team_test_spec.
  reflexivity.
Qed.

Lemma apply_filters_test (season_sel : list Z) (team_sel : list string)
    (start_date end_date : Z) (matches : list Row) :
  apply_filters season_sel team_sel start_date end_date matches =
  filter (fun r => season_test season_sel r
                   && date_mask start_date end_date r
                   && team_test team_sel r) matches.
Proof.
  unfold apply_filters, filter_date.
  rewrite filter_season_test, filter_team_test.
  induction matches as [| r m IH]; simpl; [reflexivity |].
  destruct (season_test season_sel r); simpl; [| exact IH].
  destruct (date_mask start_date end_date r); simpl; [| exact IH].
  destruct (team_test team_sel r); simpl; [now rewrite IH | exact IH].
Qed.

Lemma filter_idem {A : Type} (p : A -> bool) (l : list A) :
  filter p (filter p l) = filter p l.
Proof.
  induction l as [| a l IH]; simpl; [reflexivity |].
  destruct (p a) eqn:Hp; simpl; [rewrite Hp, IH |]; now try rewrite IH.
Qed.

(** Filtering judges each row on its own: the view of two tables laid end
    to end is the two views laid end to end, so the rows that are kept stay
    in table order; and filtering a view again with the same selections
    gives the view back. *)
Theorem view_rowwise_and_stable (season_sel : list Z) (team_sel : list string)
    (start_date end_date : Z) (m1 m2 : list Row) :
  let view := apply_filters season_sel team_sel start_date end_date in
  view (m1 ++ m2)%list = (view m1 ++ view m2)%list /\
  view (view m1) = view m1 /\
  (length (view m1) <= length m1)%nat.
Proof.
  cbv zeta. rewrite !apply_filters_test.
  split; [apply filter_app |].
  split; [apply filter_idem | apply filter_length_le].
Qed.

(** ** The sidebar options *)

Lemma unique_Z_In (l : list Z) (x : Z) : In x (unique_Z l) <-> In x l.
Proof.
  induction l as [| y l IH]; simpl; [reflexivity |].
  rewrite filter_In, IH, negb_true_iff, Z.eqb_neq.
  destruct (Z.eq_dec x y); intuition congruence.
Qed.

Lemma unique_Z_NoDup (l : list Z) : NoDup (unique_Z l).
Proof.
  induction l as [| y l IH]; simpl; constructor.
  - rewrite filter_In, negb_true_iff, Z.eqb_neq. tauto.
  - now apply NoDup_filter.
Qed.

Section PySorted.
Context {A : Type} (leb : A -> A -> bool).
Hypothesis leb_total : forall a b, leb a b = true \/ leb b a = true.

Let ordered (a b : A) : Prop := leb a b = true.

Lemma insert_sorted_perm (x : A) (l : list A) :
  Permutation (insert_sorted leb x l) (x :: l).
Proof.
  induction l as [| y l IH]; simpl; [reflexivity |].
  destruct (leb x y); [reflexivity |].
  rewrite IH. apply perm_swap.
Qed.

Lemma py_sorted_perm (l : list A) : Permutation (py_sorted leb l) l.
Proof.
  unfold py_sorted. induction l as [| x l IH]; simpl; [reflexivity |].
  rewrite insert_sorted_perm. now constructor.
Qed.

Lemma insert_sorted_hd (a x : A) (l : list A) :
  ordered a x -> HdRel ordered a l -> HdRel ordered a (insert_sorted leb x l).
Proof.
  intros Hax Hhd. destruct l as [| y l]; simpl; [now constructor |].
  destruct (leb x y); constructor; [exact Hax |].
  now inversion Hhd.
Qed.

Lemma insert_sorted_sorted (x : A) (l : list A) :
  Sorted ordered l -> Sorted ordered (insert_sorted leb x l).
Proof.
  induction 1 as [| y l Hs IH Hhd]; simpl.
  - repeat constructor.
  - destruct (leb x y) eqn:Hxy.
    + constructor; [now constructor | now constructor].
    + constructor; [exact IH |].
      apply insert_sorted_hd; [| exact Hhd].
      destruct (leb_total x y) as [H | H]; [congruence | exact H].
Qed.

Lemma py_sorted_sorted (l : list A) : Sorted ordered (py_sorted leb l).
Proof.
  unfold py_sorted. induction l as [| x l IH]; simpl.
  - constructor.
  - now apply insert_sorted_sorted.
Qed.
End PySorted.

Lemma Z_leb_total (a b : Z) : (a <=? b) = true \/ (b <=? a) = true.
Proof. rewrite !Z.leb_le. lia. Qed.

Lemma sorted_distinct_strict (l : list Z) :
  Sorted (fun a b => (a <=? b) = true) l -> NoDup l -> StronglySorted Z.lt l.
Proof.
  intros Hs Hnd.
  assert (Hss : StronglySorted (fun a b => (a <=? b) = true) l).
  { apply Sorted_StronglySorted; [| exact Hs].
    intros a b c Hab Hbc. rewrite Z.leb_le in *. lia. }
  clear Hs. induction Hss as [| a l Hss IH Hall]; [constructor |].
  inversion Hnd as [| ? ? Hnotin Hnd']; subst.
  constructor; [now apply IH |].
  rewrite Forall_forall in *. intros b Hb. specialize (Hall b Hb).
  rewrite Z.leb_le in Hall.
  assert (a <> b) by (intros ->; contradiction). lia.
Qed.

Lemma seasons_sorted (matches : list Row) : StronglySorted Z.lt (seasons matches).
Proof.
  unfold seasons. apply sorted_distinct_strict.
  - apply py_sorted_sorted, Z_leb_total.
  - apply (Permutation_NoDup (Permutation_sym (py_sorted_perm Z.leb _))).
    apply unique_Z_NoDup.
Qed.

Lemma seasons_In (matches : list Row) (y : Z) :
  In y (seasons matches) <-> In (Some y) (map season matches).
Proof.
  unfold seasons.
  assert (Hperm := py_sorted_perm Z.leb (unique_Z (dropna (map season matches)))).
  rewrite <- dropna_In, <- (unique_Z_In (dropna (map season matches))). split.
  - apply Permutation_in, Hperm.
  - apply Permutation_in, Permutation_sym, Hperm.
Qed.

Lemma default_seasons_skipn (matches : list Row) :
  default_seasons matches =
  skipn (length (seasons matches) - 5) (seasons matches).
Proof.
  unfold default_seasons. cbv zeta.
  destruct (Nat.leb_spec 5 (length (seasons matches))) as [Hle | Hlt].
  - reflexivity.
  - replace (length (seasons matches) - 5)%nat with 0%nat by lia. reflexivity.
Qed.

Lemma StronglySorted_app_lt (l1 l2 : list Z) :
  StronglySorted Z.lt (l1 ++ l2) ->
  forall a b, In a l1 -> In b l2 -> a < b.
Proof.
  induction l1 as [| x l1 IH]; simpl; intros Hs a b Ha Hb; [contradiction |].
  apply StronglySorted_inv in Hs. destruct Hs as [Hs Hall].
  destruct Ha as [<- | Ha].
  - rewrite Forall_forall in Hall. apply Hall, in_or_app. now right.
  - now apply IH.
Qed.

(** The season options are the seasons present in the table, each once, in
    ascending order; the preselected ones are the last five of them (all of
    them when there are fewer), that is, the most recent seasons. *)
Theorem season_options (matches : list Row) :
  StronglySorted Z.lt (seasons matches) /\
  (forall y, In y (seasons matches) <-> In (Some y) (map season matches)) /\
  exists older,
    seasons matches = (older ++ default_seasons matches)%list /\
    length (default_seasons matches) = Nat.min 5 (length (seasons matches)) /\
    forall a b, In a older -> In b (default_seasons matches) -> a < b.
Proof.
  split; [apply seasons_sorted |]. split; [apply seasons_In |].
  exists (firstn (length (seasons matches) - 5) (seasons matches)).
  rewrite default_seasons_skipn.
  assert (Happ : (firstn (length (seasons matches) - 5) (seasons matches)
                  ++ skipn (length (seasons matches) - 5) (seasons matches))%list
                 = seasons matches) by apply firstn_skipn.
  split; [now rewrite Happ |].
  split; [rewrite length_skipn; lia |].
  apply StronglySorted_app_lt. rewrite Happ. apply seasons_sorted.
Qed.

Lemma teams_In (matches : list Row) (t : string) :
  In t (teams matches) <->
  exists r, In r matches /\ (team1 r = t \/ team2 r = t).
Proof.
  unfold teams.
  assert (Hperm := py_sorted_perm String.leb
                     (unique (map team1 matches ++ map team2 matches)%list)).
  split.
  - intros Hin. apply (Permutation_in _ Hperm) in Hin.
    apply unique_In, in_app_or in Hin.
    destruct Hin as [Hin | Hin]; apply in_map_iff in Hin;
      destruct Hin as [r [Heq Hr]]; exists r; auto.
  - intros [r [Hr Ht]]. apply (Permutation_in _ (Permutation_sym Hperm)).
    apply unique_In, in_or_app.
    destruct Ht as [<- | <-]; [left | right]; now apply in_map.
Qed.

(** The team options are the names that occur as [team1] or [team2] of some
    match, each once, in ascending order. *)
Theorem team_options (matches : list Row) :
  Sorted (fun a b => String.leb a b = true) (teams matches) /\
  NoDup (teams matches) /\
  (forall t, In t (teams matches) <->
             exists r, In r matches /\ (team1 r = t \/ team2 r = t)).
Proof.
  split; [apply py_sorted_sorted, String.leb_total |].
  split; [| apply teams_In].
  unfold teams.
  apply (Permutation_NoDup (Permutation_sym (py_sorted_perm String.leb _))).
  apply unique_NoDup.
Qed.

(** ** Selecting every option *)

Lemma filter_filter_andb {A : Type} (p q : A -> bool) (l : list A) :
  filter p (filter q l) = filter (fun a => q a && p a) l.
Proof.
  induction l as [| a l IH]; simpl; [reflexivity |].
  destruct (q a); simpl; [destruct (p a) |]; now rewrite IH.
Qed.

(** Selecting every team of the table gives the same view as selecting no
    team. *)
Theorem all_teams_is_no_team_filter (season_sel : list Z)
    (start_date end_date : Z) (matches : list Row) :
  apply_filters season_sel (teams matches) start_date end_date matches =
  apply_filters season_sel [] start_date end_date matches.
Proof.
  rewrite !apply_filters_test. apply filter_ext_in. intros r Hr.
  f_equal.
  assert (H : team_test (teams matches) r = true).
  { apply team_test_spec. right. left. apply teams_In. exists r. auto. }
  rewrite H. reflexivity.
Qed.

(** Selecting every season of the table is not the same as selecting none:
    it keeps, of the view without season selection, the rows that have a
    season.  (When no row of the table has a season there is no option to
    select, and the season filter is off.) *)
Theorem all_seasons_drops_missing_season (team_sel : list string)
    (start_date end_date : Z) (matches : list Row) :
  (seasons matches <> [] ->
   apply_filters (seasons matches) team_sel start_date end_date matches =
   filter (fun r => notna (season r))
          (apply_filters [] team_sel start_date end_date matches)) /\
  (seasons matches = [] -> forall r, In r matches -> season r = None).
Proof.
  split.
  - intros Hne. rewrite !apply_filters_test, filter_filter_andb.
    apply filter_ext_in. intros r Hr.
    assert (H : season_test (seasons matches) r = notna (season r)).
    { unfold season_test, season_mask.
      destruct (seasons matches) as [| y0 rest] eqn:Hs; [contradiction |].
      cbn [truthy negb orb]. rewrite <- Hs.
      destruct (season r) as [y |] eqn:Hy; [| reflexivity].
      apply isin_Z_spec. exists y. split; [reflexivity |].
      apply seasons_In. rewrite <- Hy. now apply in_map. }
    rewrite H. unfold season_test. cbn [truthy negb orb].
    destruct (notna (season r)), (date_mask start_date end_date r),
      (team_test team_sel r); reflexivity.
  - intros Hnil r Hr. destruct (season r) as [y |] eqn:Hy; [| reflexivity].
    assert (Hin : In y (seasons matches)).
    { apply seasons_In. rewrite <- Hy. now apply in_map. }
    rewrite Hnil in Hin. contradiction.
Qed.

Lemma all_seasons_drops_missing_season_witness :
  seasons (load_matches file_with_missing_season) <> [] /\
  map match_id
    (apply_filters (seasons (load_matches file_with_missing_season)) []
       18262 18993 (load_matches file_with_missing_season))
  = [Some 1; Some 3].
Proof.
  assert (Hne : seasons (load_matches file_with_missing_season) <> [])
    by discriminate.
  split; [exact Hne |].
  rewrite (proj1 (all_seasons_drops_missing_season [] 18262 18993
                    (load_matches file_with_missing_season)) Hne).
  reflexivity.
Defined.

(** ** The default date range *)

Lemma fold_min_le (d : Z) (ds : list Z) :
  fold_right Z.min d ds <= d /\ Forall (fun x => fold_right Z.min d ds <= x) ds.
Proof.
  induction ds as [| x ds [IH1 IH2]]; simpl; [split; [lia | constructor] |].
  split; [lia |]. constructor; [lia |].
  rewrite Forall_forall in *. intros y Hy. specialize (IH2 y Hy). lia.
Qed.

Lemma fold_max_ge (d : Z) (ds : list Z) :
  d <= fold_right Z.max d ds /\ Forall (fun x => x <= fold_right Z.max d ds) ds.
Proof.
  induction ds as [| x ds [IH1 IH2]]; simpl; [split; [lia | constructor] |].
  split; [lia |]. constructor; [lia |].
  rewrite Forall_forall in *. intros y Hy. specialize (IH2 y Hy). lia.
Qed.

Lemma series_min_le (col : list (option Z)) (lo d : Z) :
  series_min col = Some lo -> In (Some d) col -> lo <= d.
Proof.
  unfold series_min. intros Hmin Hd. apply dropna_In in Hd.
  destruct (dropna col) as [| d0 ds]; [discriminate |].
  injection Hmin as <-. destruct (fold_min_le d0 ds) as [H1 H2].
  destruct Hd as [<- | Hd]; [exact H1 |].
  rewrite Forall_forall in H2. now apply H2.
Qed.

Lemma series_max_ge (col : list (option Z)) (hi d : Z) :
  series_max col = Some hi -> In (Some d) col -> d <= hi.
Proof.
  unfold series_max. intros Hmax Hd. apply dropna_In in Hd.
  destruct (dropna col) as [| d0 ds]; [discriminate |].
  injection Hmax as <-. destruct (fold_max_ge d0 ds) as [H1 H2].
  destruct Hd as [<- | Hd]; [exact H1 |].
  rewrite Forall_forall in H2. now apply H2.
Qed.

(** With the range the date picker starts with, the date filter cuts
    nothing at the start and keeps the rows dated up to midnight of the
    last day: every row dated on a calendar day is kept, and a row of the
    last day with a later time of day is not. *)
Theorem default_range_view (matches : list Row) (start_date end_date : Z) (r : Row) :
  default_date_range matches = Some (start_date, end_date) ->
  (In r (filter_date start_date end_date matches) <->
   In r matches /\ exists d, date r = Some d /\ d <= to_datetime_date end_date) /\
  (forall k, In r matches -> date r = Some (to_datetime_date k) ->
             In r (filter_date start_date end_date matches)).
Proof.
  unfold default_date_range. intros Hdef.
  destruct (series_min (map date matches)) as [lo |] eqn:Hlo; [| discriminate].
  destruct (series_max (map date matches)) as [hi |] eqn:Hhi; [| discriminate].
  injection Hdef as <- <-.
  assert (Hlow : forall d, In r matches -> date r = Some d ->
                   to_datetime_date (timestamp_date lo) <= d).
  { intros d Hr Hd. assert (lo <= d).
    { apply (series_min_le _ _ _ Hlo). rewrite <- Hd. now apply in_map. }
    unfold to_datetime_date, timestamp_date, ns_per_day.
    pose proof (Z.mul_div_le lo 86400000000000 ltac:(lia)). lia. }
  unfold filter_date. split.
  - rewrite filter_In, date_mask_spec. split.
    + intros [Hr [d [Hd [_ Hle]]]]. split; [exact Hr |]. now exists d.
    + intros [Hr [d [Hd Hle]]]. split; [exact Hr |]. exists d.
      split; [exact Hd |]. split; [now apply Hlow | exact Hle].
  - intros k Hr Hd. apply filter_In. split; [exact Hr |].
    apply date_mask_spec. exists (to_datetime_date k).
    split; [exact Hd |]. split; [now apply Hlow |].
    assert (to_datetime_date k <= hi).
    { apply (series_max_ge _ _ _ Hhi). rewrite <- Hd. now apply in_map. }
    unfold to_datetime_date, timestamp_date, ns_per_day in *.
    assert (k <= hi / 86400000000000)
      by (apply Z.div_le_lower_bound; lia).
    lia.
Qed.

Lemma default_range_view_witness :
  default_date_range (load_matches three_lines) = Some (18262, 18628) /\
  In (mkRow (Some 1) (Some ts_2020) (Some 2020) "Mumbai" "Chennai" "Mumbai"
        (Some "Wankhede") (Some 20) (Some 0) "Won by Runs")
     (filter_date 18262 18628 (load_matches three_lines)).
Proof.
  split; [reflexivity |].
  apply (proj2 (default_range_view (load_matches three_lines) 18262 18628
                  _ eq_refl) 18262).
  - left. reflexivity.
  - reflexivity.
Defined.

(** A match of the last day that carries a time of day falls outside the
    range the picker starts with. *)
Example default_range_cuts_last_afternoon :
  let table := [loaded_row 1 (Some ts_2020) (Some 2020) "Mumbai";
                loaded_row 2 (Some (ts_2021 + 50400000000000)) (Some 2021) "Chennai"] in
  default_date_range table = Some (18262, 18628) /\
  map match_id (filter_date 18262 18628 table) = [Some 1].
Proof. split; reflexivity. Qed.

(** ** How a run ends *)


(** ** The "Venues" card *)

Lemma length_dropna {A : Type} (col : list (option A)) :
  (length (dropna col) <= length col)%nat.
Proof.
  induction col as [| [x |] col IH]; simpl; lia.
Qed.

Lemma length_unique (l : list string) : (length (unique l) <= length l)%nat.
Proof.
  induction l as [| x l IH]; simpl; [lia |].
  pose proof (filter_length_le (fun y => negb (String.eqb y x)) (unique l)). lia.
Qed.

(** The "Venues" card is 0 when the file has no [venue] column; otherwise
    it is the number of distinct venues present in the view, which is at
    most the number of matches, and 0 only when every venue is missing. *)
Theorem venues_card (venue_col : bool) (f : list Row) :
  0 <= unique_venues venue_col f <= total_matches f /\
  (venue_col = false -> unique_venues venue_col f = 0) /\
  (venue_col = true ->
   exists names,
     unique_venues venue_col f = Z.of_nat (length names) /\ NoDup names /\
     (forall v, In v names <-> In (Some v) (map venue f)) /\
     (unique_venues venue_col f = 0 <-> forall r, In r f -> venue r = None)).
Proof.
  unfold unique_venues, total_matches, nunique.
  pose proof (length_unique (dropna (map venue f))) as H1.
  pose proof (length_dropna (map venue f)) as H2.
  rewrite length_map in H2.
  split; [destruct venue_col; lia |].
  split; [now intros -> |].
  intros ->. exists (unique (dropna (map venue f))).
  split; [reflexivity |]. split; [apply unique_NoDup |].
  assert (Hin : forall v, In v (unique (dropna (map venue f)))
                          <-> In (Some v) (map venue f)).
  { intros v. now rewrite unique_In, dropna_In. }
  split; [exact Hin |]. split.
  - intros Hzero r Hr. destruct (venue r) as [v |] eqn:Hv; [| reflexivity].
    assert (Hv' : In v (unique (dropna (map venue f)))).
    { apply Hin. rewrite <- Hv. now apply in_map. }
    destruct (unique (dropna (map venue f))); [contradiction | simpl in Hzero; lia].
  - intros Hall. destruct (unique (dropna (map venue f))) as [| v l] eqn:Hu;
      [reflexivity |].
    assert (Hv : In (Some v) (map venue f)) by (apply Hin; now left).
    apply in_map_iff in Hv. destruct Hv as [r [Hv Hr]].
    rewrite (Hall r Hr) in Hv. discriminate.
Qed.

Lemma venues_card_witness :
  unique_venues false view_scenario_C = 0 /\
  exists names,
    unique_venues true view_scenario_C = Z.of_nat (length names) /\ NoDup names /\
    (forall v, In v names <-> In (Some v) (map venue view_scenario_C)) /\
    (unique_venues true view_scenario_C = 0 <->
     forall r, In r view_scenario_C -> venue r = None).
Proof.
  split.
  - exact (proj1 (proj2 (venues_card false view_scenario_C)) eq_refl).
  - exact (proj2 (proj2 (venues_card true view_scenario_C)) eq_refl).
Defined.

(** ** The total of the season trend *)

Lemma sum_counts_keys {K K' : Type} (g : K -> K') (c : K -> Z) (keys : list K) :
  sum_counts (map (fun k => (g k, c k)) keys) =
  sum_counts (map (fun k => (k, c k)) keys).
Proof.
  unfold sum_counts. induction keys as [| k keys IH]; simpl; [reflexivity |].
  now rewrite IH.
Qed.

Lemma StronglySorted_lt_NoDup (l : list Z) : StronglySorted Z.lt l -> NoDup l.
Proof.
  induction 1 as [| a l Hs IH Hall]; constructor; [| exact IH].
  intros Hin. rewrite Forall_forall in Hall. specialize (Hall a Hin). lia.
Qed.

Lemma season_counts_total (f : list Row) :
  sum_counts (season_counts f) =
  count_where (fun r => notna (season r) && notna (match_id r)) f.
Proof.
  rewrite season_counts_unfold.
  rewrite (sum_counts_keys Some (fun s => count_where (in_season s) f)).
  rewrite (sum_group_counts in_season).
  - apply count_where_ext. intros r Hr.
    destruct (season r) as [y |] eqn:Hy.
    + destruct (match_id r) as [i |] eqn:Hi; simpl.
      * apply existsb_exists. exists y. split.
        { apply (sorted_keys_In Z.compare Z.compare_eq_iff), dropna_In.
          rewrite <- Hy. now apply in_map. }
        unfold in_season. now rewrite Hy, Hi, Z.eqb_refl.
      * apply not_true_is_false. intros Hex. apply existsb_exists in Hex.
        destruct Hex as [k [_ Hk]]. unfold in_season in Hk.
        rewrite Hy, Hi, andb_false_r in Hk. discriminate.
    + simpl. apply not_true_is_false. intros Hex. apply existsb_exists in Hex.
      destruct Hex as [k [_ Hk]]. unfold in_season in Hk.
      rewrite Hy in Hk. discriminate.
  - intros k k' r Hk Hk'. unfold in_season in *.
    destruct (season r) as [y |]; [| discriminate].
    apply andb_true_iff in Hk, Hk'. destruct Hk as [Hk _], Hk' as [Hk' _].
    apply Z.eqb_eq in Hk, Hk'. congruence.
  - apply StronglySorted_lt_NoDup, sorted_keys_sorted.
Qed.

Lemma backfilled_match_id (raw : RawTable) (r : Row) :
  has_match_id raw = false -> In r (load_matches raw) -> match_id r <> None.
Proof.
  intros Hid Hr.
  assert (Hin : In (match_id r) (map match_id (load_matches raw)))
    by now apply in_map.
  rewrite match_id_load_matches in Hin. unfold match_id_column in Hin.
  rewrite Hid in Hin. apply in_map_iff in Hin.
  destruct Hin as [i [Heq _]]. congruence.
Qed.

(** The points of the season trend add up to the number of matches of the
    view that have both a season and a [match_id]; for a file that has
    neither a [match_id] nor a [season] column, where the loader fills both
    in, they add up to all the matches of the view. *)
Theorem season_trend_total (raw : RawTable) (season_sel : list Z)
    (team_sel : list string) (start_date end_date : Z) :
  let f := apply_filters season_sel team_sel start_date end_date
             (load_matches raw) in
  sum_counts (season_counts f) =
    count_where (fun r => notna (season r) && notna (match_id r)) f /\
  (has_match_id raw = false -> has_season raw = false ->
   sum_counts (season_counts f) = total_matches f).
Proof.
  cbv zeta. split; [apply season_counts_total |].
  intros Hid Hs. rewrite season_counts_total. unfold total_matches.
  apply count_where_all. intros r Hr.
  apply apply_filters_In in Hr. destruct Hr as [Hr [_ [Hmask _]]].
  apply date_mask_spec in Hmask. destruct Hmask as [d [Hd _]].
  rewrite (load_matches_derived_season raw r Hs Hr), Hd.
  pose proof (backfilled_match_id raw r Hid Hr) as Hm.
  destruct (match_id r); [reflexivity | contradiction].
Qed.

Lemma season_trend_total_witness :
  sum_counts (season_counts
                (apply_filters [] [] 18262 18628 (load_matches three_lines)))
  = total_matches (apply_filters [] [] 18262 18628 (load_matches three_lines)).
Proof.
  exact (proj2 (season_trend_total three_lines [] [] 18262 18628)
           eq_refl eq_refl).
Defined.

